(** * sdget: key/value lookup over DNS TXT records

    A shallow embedding of the core of [sdget]: the TXT record split,
    [lookUpValues] and [output], as written in [main.go] and in the earlier
    single-file variant of the program ([unnamed/part_001]).

    Go strings are byte sequences: they are modelled by [string], whose
    characters ([ascii]) are exactly the 256 byte values.  A Go slice
    [[]string] is modelled with its nil-ness, because [encoding/json] prints
    a nil slice and an empty one differently.

    The entry points around the core are embedded as well: [getTxtProvider]
    and [main] of [main.go], [getTxtRecords] and [main] of the single-file
    variant.  What they call and these files do not define (the URI
    parser, the DNS provider, the DNS client library) is a parameter. *)

From Stdlib Require Import String Ascii List Bool Arith NArith Lia.
From Stdlib Require Import DecimalString.
Import ListNotations.

Local Open Scope list_scope.
Local Open Scope string_scope.

(** ** The parts of the Go runtime and standard library the program uses *)

Module Go.

(** *** Slices of strings *)

(** [None] is the nil slice, [Some l] a non-nil slice holding [l]. *)
Definition slice : Type := option (list string).

Definition elems (s : slice) : list string :=
  match s with
  | None => []
  | Some l => l
  end.

Definition len (s : slice) : nat := List.length (elems s).

(** [append(s, x)]: the result is never nil. *)
Definition append (s : slice) (x : string) : slice := Some (elems s ++ [x])%list.

(** *** Bytes *)

Definition byte_eq : ascii := "061"%char.      (* the equals sign *)
Definition byte_nl : ascii := "010"%char.      (* line feed *)
Definition byte_quote : ascii := "034"%char.   (* the double quote *)
Definition byte_bslash : ascii := "092"%char.  (* the backslash *)

Definition str1 (b : ascii) : string := String b EmptyString.

(** *** package strings *)

(** [strings.IndexByte(s, c)]: the position of the first [c] in [s];
    [None] stands for Go's [-1]. *)
Fixpoint IndexByte (s : string) (c : ascii) : option nat :=
  match s with
  | EmptyString => None
  | String b rest =>
      if Ascii.eqb b c then Some 0
      else match IndexByte rest c with
           | Some m => Some (S m)
           | None => None
           end
  end.

(** [s[:m]] and [s[m:]]. *)
Definition slice_to (s : string) (m : nat) : string := substring 0 m s.
Definition slice_from (s : string) (m : nat) : string :=
  substring m (String.length s - m) s.

(** [strings.SplitN(s, sep, n)] for a separator of one byte and [n >= 0]:
    at most [n] pieces, the last one holding the unsplit remainder. *)
Fixpoint SplitN (s : string) (sep : ascii) (n : nat) : list string :=
  match n with
  | 0 => []
  | S n' =>
      match n' with
      | 0 => [s]
      | S _ =>
          match IndexByte s sep with
          | None => [s]
          | Some m => slice_to s m :: SplitN (slice_from s (m + 1)) sep n'
          end
      end
  end.

(** *** Errors *)

(** The error values the program builds, and the ones a sink may return.
    [Error] renders the message, as the [Error()] method does. *)
Inductive error : Type :=
| NoValue (key : string)
    (* errors.Errorf("no values found for key %s, and no default provided", key) *)
| TooManyValues (count : nat) (key : string)
    (* errors.Errorf("%d values found for key %s, but only 1 was expected", count, key) *)
| Cardinality (count : nat) (values : slice)
    (* fmt.Errorf("expected 1 value but got %d (%v)", count, values) *)
| SinkError (msg : string)
    (* whatever the io.Writer returned *)
| Wrap (cause : error) (msg : string).
    (* errors.Wrap(cause, msg) *)

(** [%d] of a non-negative int. *)
Definition fmt_d (n : nat) : string := NilEmpty.string_of_uint (Nat.to_uint n).

(** [%v] of a [[]string]: the elements between brackets, separated by
    spaces. *)
Fixpoint join (sep : string) (l : list string) : string :=
  match l with
  | [] => EmptyString
  | [x] => x
  | x :: rest => x ++ sep ++ join sep rest
  end.

Definition fmt_v (s : slice) : string := "[" ++ join " " (elems s) ++ "]".

Fixpoint Error (e : error) : string :=
  match e with
  | NoValue key =>
      "no values found for key " ++ key ++ ", and no default provided"
  | TooManyValues count key =>
      fmt_d count ++ " values found for key " ++ key
        ++ ", but only 1 was expected"
  | Cardinality count values =>
      "expected 1 value but got " ++ fmt_d count ++ " (" ++ fmt_v values ++ ")"
  | SinkError msg => msg
  | Wrap cause msg => msg ++ ": " ++ Error cause
  end.

(** *** package io *)

(** [io.Writer]: one [Write] call takes the sink to a new state and may
    fail.  The byte count [Write] also returns is dropped by every caller
    in this program. *)
Class Writer (W : Type) : Type :=
  Write : W -> string -> W * option error.

(** A sink that keeps every byte and never fails ([bytes.Buffer], or a
    standard output that accepts everything). *)
Record Buffer : Type := mkBuffer { bytes : string }.

#[export] Instance Buffer_Writer : Writer Buffer :=
  fun buf p => (mkBuffer (bytes buf ++ p), None).

(** A sink that takes a bounded number of bytes, then fails without
    accepting the write. *)
Record Limited : Type := mkLimited { room : nat; taken : string }.

#[export] Instance Limited_Writer : Writer Limited :=
  fun w p =>
    if (String.length p <=? room w)%nat
    then (mkLimited (room w - String.length p) (taken w ++ p), None)
    else (w, Some (SinkError "short write")).

(** *** package fmt *)

(** [fmt.Fprintln(sink, s)] for one string operand: a single [Write] of
    the string followed by a newline. *)
Definition Fprintln {W} `{Writer W} (sink : W) (s : string) : W * option error :=
  Write sink (s ++ str1 byte_nl).

(** *** package unicode/utf8 *)

Definition byteN (b : ascii) : N := N_of_ascii b.

Definition RuneError : N := 0xFFFD%N.
Definition RuneSelf : N := 0x80%N.

(** What the table [first] says about a leading byte: ASCII, invalid, or
    the start of a sequence of [size] bytes whose second byte lies in
    [lo..hi]. *)
Inductive firstInfo : Type :=
| first_as
| first_xx
| first_lead (size : nat) (lo hi : N).

Definition first (b : N) : firstInfo :=
  (if b <? 0x80 then first_as
   else if b <? 0xC2 then first_xx
   else if b <? 0xE0 then first_lead 2 0x80 0xBF
   else if b =? 0xE0 then first_lead 3 0xA0 0xBF
   else if b <? 0xED then first_lead 3 0x80 0xBF
   else if b =? 0xED then first_lead 3 0x80 0x9F
   else if b <? 0xF0 then first_lead 3 0x80 0xBF
   else if b =? 0xF0 then first_lead 4 0x90 0xBF
   else if b <? 0xF4 then first_lead 4 0x80 0xBF
   else if b =? 0xF4 then first_lead 4 0x80 0x8F
   else first_xx)%N.

(** Continuation bytes after the second one lie in [locb..hicb]. *)
Definition locb : N := 0x80%N.
Definition hicb : N := 0xBF%N.

(** [utf8.DecodeRuneInString(s)]: the first rune of [s] and its width in
    bytes; [(RuneError, 1)] on an invalid or truncated sequence. *)
Definition DecodeRuneInString (s : string) : N * nat :=
  match s with
  | EmptyString => (RuneError, 0)
  | String c0 t0 =>
      let s0 := byteN c0 in
      match first s0 with
      | first_as => (s0, 1)
      | first_xx => (RuneError, 1)
      | first_lead sz lo hi =>
          if (String.length s <? sz)%nat then (RuneError, 1)
          else
            match t0 with
            | EmptyString => (RuneError, 1)
            | String c1 t1 =>
                let s1 := byteN c1 in
                if ((s1 <? lo) || (hi <? s1))%N then (RuneError, 1)
                else if (sz <=? 2)%nat then
                  (N.lor (N.shiftl (N.land s0 0x1F) 6) (N.land s1 0x3F), 2)
                else
                  match t1 with
                  | EmptyString => (RuneError, 1)
                  | String c2 t2 =>
                      let s2 := byteN c2 in
                      if ((s2 <? locb) || (hicb <? s2))%N then (RuneError, 1)
                      else if (sz <=? 3)%nat then
                        (N.lor (N.shiftl (N.land s0 0x0F) 12)
                           (N.lor (N.shiftl (N.land s1 0x3F) 6)
                              (N.land s2 0x3F)), 3)
                      else
                        match t2 with
                        | EmptyString => (RuneError, 1)
                        | String c3 _ =>
                            let s3 := byteN c3 in
                            if ((s3 <? locb) || (hicb <? s3))%N
                            then (RuneError, 1)
                            else
                              (N.lor (N.shiftl (N.land s0 0x07) 18)
                                 (N.lor (N.shiftl (N.land s1 0x3F) 12)
                                    (N.lor (N.shiftl (N.land s2 0x3F) 6)
                                       (N.land s3 0x3F))), 4)
                        end
                  end
            end
      end
  end.

(** *** package encoding/json *)

(** The digits of [const hex]. *)
Definition hex (d : N) : ascii :=
  (if d <? 10 then ascii_of_N (48 + d) else ascii_of_N (87 + d))%N.

(** [safeSet]: the ASCII bytes a JSON string holds as they are: every
    byte from the space to 0x7f except the double quote and the
    backslash.  [htmlSafeSet] also leaves out the three bytes that
    matter to HTML. *)
Definition safeSet (b : N) : bool :=
  ((0x20 <=? b) && (b <? 0x80) && negb (b =? 0x22) && negb (b =? 0x5C))%N.

Definition htmlSafeSet (b : N) : bool :=
  (safeSet b && negb (b =? 0x3C) && negb (b =? 0x3E) && negb (b =? 0x26))%N.

(** The escape written for an ASCII byte outside the safe set, as in the
    switch of [appendString] (the toolchain before Go 1.22 has no case
    for backspace and form feed and prints them with the default case). *)
Definition escapeByte (c : ascii) : string :=
  let b := byteN c in
  let bs := byte_bslash in
  (if (b =? 0x5C) || (b =? 0x22) then String bs (str1 c)
   else if b =? 0x08 then String bs "b"
   else if b =? 0x0C then String bs "f"
   else if b =? 0x0A then String bs "n"
   else if b =? 0x0D then String bs "r"
   else if b =? 0x09 then String bs "t"
   else String bs ("u00" ++ String (hex (N.shiftr b 4))
                               (str1 (hex (N.land b 0xF)))))%N.

(** The UTF-8 encoding of [RuneError] (U+FFFD): the bytes EF BF BD. *)
Definition runeErrorBytes : string :=
  String "239"%char (String "191"%char (str1 "189"%char)).

(** The loop of [appendString], one rune at a time; every turn consumes
    at least one byte, so [String.length src] turns are enough.  A byte
    that starts no valid UTF-8 sequence is replaced by the replacement
    character itself, written as its three bytes. *)
Fixpoint appendRunes (fuel : nat) (escapeHTML : bool) (src : string) : string :=
  match fuel with
  | 0 => EmptyString
  | S fuel' =>
      match src with
      | EmptyString => EmptyString
      | String c rest =>
          let b := byteN c in
          if (b <? RuneSelf)%N then
            if htmlSafeSet b || (negb escapeHTML && safeSet b)
            then String c (appendRunes fuel' escapeHTML rest)
            else escapeByte c ++ appendRunes fuel' escapeHTML rest
          else
            let '(r, size) := DecodeRuneInString src in
            let after := slice_from src size in
            if ((r =? RuneError)%N && (size =? 1)%nat)%bool then
              runeErrorBytes ++ appendRunes fuel' escapeHTML after
            else if ((r =? 0x2028) || (r =? 0x2029))%N then
              String byte_bslash ("u202" ++ str1 (hex (N.land r 0xF)))
                ++ appendRunes fuel' escapeHTML after
            else
              slice_to src size ++ appendRunes fuel' escapeHTML after
      end
  end.

(** [appendString(dst, src, escapeHTML)] on an empty [dst]: the JSON
    string literal of [src]. *)
Definition appendString (src : string) (escapeHTML : bool) : string :=
  String byte_quote
    (appendRunes (String.length src) escapeHTML src ++ str1 byte_quote).

(** The two dynamic types this program passes to [Encode]. *)
Inductive value : Type :=
| OfString (s : string)
| OfStrings (v : slice).

(** The array encoder: the elements between brackets, separated by
    commas. *)
Definition encodeArray (l : list string) (escapeHTML : bool) : string :=
  "[" ++ join "," (map (fun s => appendString s escapeHTML) l) ++ "]".

(** [Marshal] with the encoder's options: a string is a string literal,
    a nil slice is [null], any other slice is an array. *)
Definition marshal (v : value) (escapeHTML : bool) : string :=
  match v with
  | OfString s => appendString s escapeHTML
  | OfStrings None => "null"
  | OfStrings (Some l) => encodeArray l escapeHTML
  end.

(** [json.Encoder]: the sink, the escaping option and the sticky error. *)
Record Encoder (W : Type) : Type := mkEncoder {
  enc_w : W;
  enc_escapeHTML : bool;
  enc_err : option error
}.
Arguments mkEncoder {W}.
Arguments enc_w {W}.
Arguments enc_escapeHTML {W}.
Arguments enc_err {W}.

Definition NewEncoder {W} (w : W) : Encoder W := mkEncoder w true None.

Definition SetEscapeHTML {W} (enc : Encoder W) (on : bool) : Encoder W :=
  mkEncoder (enc_w enc) on (enc_err enc).

(** [enc.Encode(v)]: the encoding of [v] and a newline, in one [Write].
    Strings and slices of strings always marshal, so the only failure is
    the sink's. *)
Definition Encode {W} `{Writer W} (enc : Encoder W) (v : value)
  : Encoder W * option error :=
  match enc_err enc with
  | Some e => (enc, Some e)
  | None =>
      let b := marshal v (enc_escapeHTML enc) ++ str1 byte_nl in
      match Write (enc_w enc) b with
      | (w', Some e) => (mkEncoder w' (enc_escapeHTML enc) (Some e), Some e)
      | (w', None) => (mkEncoder w' (enc_escapeHTML enc) None, None)
      end
  end.

End Go.

(** ** More of the libraries, for the entry points

    What [getTxtProvider], [getTxtRecords] and the two [main] functions
    need beyond the core: three more functions of package [strings], the
    errors these functions build, the types of the DNS client library they
    read, and the ways a process ends. *)

Module GoLib.
Import Go.

Definition byte_colon : ascii := "058"%char.
Definition byte_slash : ascii := "047"%char.
Definition byte_dot : ascii := "046"%char.

(** [strings.ContainsRune(s, r)] for a rune below 0x80, which is one byte. *)
Definition ContainsRune (s : string) (r : ascii) : bool :=
  match IndexByte s r with
  | Some _ => true
  | None => false
  end.

(** [strings.HasPrefix(s, prefix)]. *)
Definition HasPrefix (s pre : string) : bool := String.prefix pre s.

(** [strings.HasSuffix(s, suffix)]:
    [len(s) >= len(suffix) && s[len(s)-len(suffix):] == suffix]. *)
Definition HasSuffix (s suf : string) : bool :=
  (String.length suf <=? String.length s)%nat
  && (slice_from s (String.length s - String.length suf) =? suf).

(** The errors of the entry points.  [Foreign] is an error made by code
    that is not in these files (the URI parser, the provider, the DNS
    library); only its message is ever read. *)
Inductive failure : Type :=
| Foreign (msg : string)
| UnexpectedQuery (query : string)
    (* fmt.Errorf("unexpected \"%s\": queries in DNS URIs not supported", query) *)
| UnexpectedFragment (fragment : string)
    (* fmt.Errorf("unexpected \"%s\": fragments in DNS URIs not supported", fragment) *)
| NoTxtRecords (domain : string)
    (* errors.Errorf("no TXT records for domain %s", domain) *)
| RemoteError (rcode : string)
    (* errors.Errorf("error from remote DNS server: %s", rcode) *)
| Wrapped (cause : failure) (msg : string).
    (* errors.Wrap(cause, msg) *)

Definition inQuotes (s : string) : string :=
  String byte_quote (s ++ str1 byte_quote).

Fixpoint Message (e : failure) : string :=
  match e with
  | Foreign msg => msg
  | UnexpectedQuery query =>
      "unexpected " ++ inQuotes query ++ ": queries in DNS URIs not supported"
  | UnexpectedFragment fragment =>
      "unexpected " ++ inQuotes fragment
        ++ ": fragments in DNS URIs not supported"
  | NoTxtRecords domain => "no TXT records for domain " ++ domain
  | RemoteError rcode => "error from remote DNS server: " ++ rcode
  | Wrapped cause msg => msg ++ ": " ++ Message cause
  end.

(** A call that returns a value, returns an error, or panics. *)
Inductive outcome (A : Type) : Type :=
| Returned (a : A)
| Failed (e : failure)
| Panicked.
Arguments Returned {A}.
Arguments Failed {A}.
Arguments Panicked {A}.

(** How a run of the program ends: [os.Exit(status)] (or the return of
    [main], status 0) with what standard output has become and what was
    printed to standard error, or a panic. *)
Inductive ending (W : Type) : Type :=
| Exit (status : nat) (stdout : W) (stderr : string)
| Crash (stdout : W).
Arguments Exit {W}.
Arguments Crash {W}.

(** [%n] is no verb of an int: [Fprintf] prints the bad-verb form. *)
Definition fmt_bad_n (n : nat) : string := "%!n(int=" ++ fmt_d n ++ ")".

(** *** The DNS client library (github.com/miekg/dns), as far as
    [getTxtRecords] reads it *)

Definition TypeTXT : nat := 16.
Definition RcodeSuccess : nat := 0.
Definition RcodeNameError : nat := 3.

(** [dns.ClientConfig]: the name servers and the port of resolv.conf. *)
Record ClientConfig : Type := mkClientConfig {
  Servers : list string;
  Port : string
}.

(** The question [SetQuestion] puts in a message, and the recursion flag. *)
Record Query : Type := mkQuery {
  qName : string;
  qType : nat;
  RecursionDesired : bool
}.

(** A resource record of an answer: a TXT record with its character
    strings, or a record of another type. *)
Inductive RR : Type :=
| TXT (Txt : list string)
| OtherRR.

Record Response : Type := mkResponse {
  Rcode : nat;
  Answer : list RR
}.

(** The three entries of the library the program calls. *)
Class DnsLibrary : Type := {
  ClientConfigFromFile : string -> ClientConfig + failure;
  Exchange : Query -> string -> Response + failure;
  RcodeToString : nat -> string
}.

End GoLib.

(** ** main.go *)

Module Main.
Import Go.
Import GoLib.

Record options : Type := mkOptions {
  outputFormat : string;
  valueType : string;
  nameserver : string
}.

Definition makeDefaultOptions : options :=
  mkOptions "plain" "single" EmptyString.

(** The values the command line accepts for [--format] and [--type]
    (the [EnumVar] calls of [main]). *)
Definition formatEnum : list string := ["json"; "plain"; "zero"].
Definition typeEnum : list string := ["single"; "list"].

Section Output.
Context {W : Type} `{Writer W}.

(** The [range] loop of the plain format: one [Fprintln] per value,
    left at the first error. *)
Fixpoint printRecords (sink : W) (values : list string) : W * option error :=
  match values with
  | [] => (sink, None)
  | record :: rest =>
      match Fprintln sink record with
      | (sink', Some err) => (sink', Some err)
      | (sink', None) => printRecords sink' rest
      end
  end.

(** The inner [switch options.valueType] of the json format.
    [values[0]] is in range there: the check at the head of [output]
    has let a "single" call through only with one value. *)
Definition encodeValues (options : options) (encoder : Encoder W)
    (values : slice) : Encoder W * option error :=
  if valueType options =? "single" then
    Encode encoder (OfString (nth 0 (elems values) EmptyString))
  else if valueType options =? "list" then
    Encode encoder (OfStrings values)
  else (encoder, None).

Definition output (options : options) (sink : W) (values : slice)
  : W * option error :=
  if (valueType options =? "single") && negb (len values =? 1)%nat then
    (sink, Some (Cardinality (len values) values))
  else if outputFormat options =? "json" then
    let encoder := NewEncoder sink in
    let encoder := SetEscapeHTML encoder false in
    match encodeValues options encoder values with
    | (encoder, Some err) => (enc_w encoder, Some (Wrap err "error writing JSON"))
    | (encoder, None) => (enc_w encoder, None)
    end
  else if outputFormat options =? "plain" then
    printRecords sink (elems values)
  else (sink, None).
End Output.

(** One turn of the loop of [lookUpValues]. *)
Definition collectRecord (key : string) (values : slice) (record : string) : slice :=
  let pieces := SplitN record byte_eq 2 in
  if (1 <? List.length pieces)%nat && (nth 0 pieces EmptyString =? key)
  then append values (nth 1 pieces EmptyString)
  else values.

(** The loop: [values] starts nil and grows by one for each matching
    record. *)
Definition collect (txtRecords : list string) (key : string) : slice :=
  fold_left (collectRecord key) txtRecords None.

(** [if len(values) == 0 { values = defaultValues }]. *)
Definition orDefault (values defaultValues : slice) : slice :=
  if (len values =? 0)%nat then defaultValues else values.

(** The cardinality check and the return. *)
Definition checked (options : options) (key : string) (values : slice)
  : slice * option error :=
  if valueType options =? "single" then
    if (len values =? 0)%nat then (None, Some (NoValue key))
    else if (1 <? len values)%nat then
      (None, Some (TooManyValues (len values) key))
    else (values, None)
  else (values, None).

(** [txtRecords] is only ranged over, so its nil-ness is not kept. *)
Definition lookUpValues (options : options) (txtRecords : list string)
    (key : string) (defaultValues : slice) : slice * option error :=
  let values := collect txtRecords key in
  let values := orDefault values defaultValues in
  checked options key values.

(** *** The provider and the entry point *)

(** The URI type and [parseURI] are declared in a file that is not among
    these sources; the fields are the ones [getTxtProvider] reads. *)
Record uri : Type := mkUri {
  scheme : string;
  authority : string;
  path : string;
  query : string;
  fragment : string
}.

(** What [main.go] calls and does not define: the URI parser, the
    constructor of the DNS provider, and the method of the [txtProvider]
    interface, for a provider type [P]. *)
Class Collaborators (P : Type) : Type := {
  parseURI : string -> uri + failure;
  makeDnsProvider : options -> string -> string -> P + failure;
  getTxtRecords : P -> list string + failure
}.

Section Entry.
Context {P : Type} `{Collaborators P}.

Definition getTxtProvider (options : options) (source : string) : P + failure :=
  if ContainsRune source byte_colon then
    match parseURI source with
    | inr err => inr err
    | inl uri =>
        if scheme uri =? "dns" then
          let domain := path uri in
          if negb (query uri =? EmptyString) then
            inr (UnexpectedQuery (query uri))
          else if negb (fragment uri =? EmptyString) then
            inr (UnexpectedFragment (fragment uri))
          else
            let domain :=
              if HasPrefix domain (str1 byte_slash)
              then slice_from domain 1
              else domain in
            makeDnsProvider options (authority uri) domain
        else makeDnsProvider options EmptyString source
    end
  else makeDnsProvider options EmptyString source.

Context {W : Type} `{Writer W}.

(** [main] from the return of [kingpin.Parse] on: [options], [source],
    [key] and [defaultValues] are what the command line gave
    ([defaultValues] is nil when no default was given). *)
Definition main (options : options) (source key : string)
    (defaultValues : slice) (stdout : W) : ending W :=
  let defaultValues :=
    match defaultValues with
    | None => Some []
    | Some _ => defaultValues
    end in
  if (valueType options =? "single") && (1 <? len defaultValues)%nat then
    Exit 1 stdout
      ("Got " ++ fmt_bad_n (len defaultValues)
         ++ " default values, but the value type is " ++ inQuotes "single"
         ++ ".  (Did you mean to set --type list?)" ++ str1 byte_nl)
  else
    match getTxtProvider options source with
    | inr err =>
        Exit 2 stdout
          ("Error setting up client: " ++ Message err ++ str1 byte_nl)
    | inl provider =>
        match getTxtRecords provider with
        | inr err =>
            Exit 3 stdout
              ("Error looking up TXT records:" ++ str1 byte_nl
                 ++ Message err ++ str1 byte_nl)
        | inl txtRecords =>
            match lookUpValues options txtRecords key defaultValues with
            | (_, Some err) =>
                Exit 4 stdout
                  ("Error looking up values for key " ++ inQuotes key
                     ++ " in " ++ source ++ ":" ++ str1 byte_nl
                     ++ Error err ++ str1 byte_nl)
            | (values, None) =>
                match output options stdout values with
                | (stdout', Some err) =>
                    Exit 5 stdout'
                      ("Error writing output values: " ++ Error err
                         ++ str1 byte_nl)
                | (stdout', None) => Exit 0 stdout' EmptyString
                end
            end
        end
    end.
End Entry.

End Main.

(** ** The single-file variant (unnamed/part_001) *)

Module Single.
Import Go.
Import GoLib.

Record options : Type := mkOptions {
  outputFormat : string;
  valueType : string
}.

Definition makeDefaultOptions : options := mkOptions "plain" "single".

Definition formatEnum : list string := ["plain"; "json"].
Definition typeEnum : list string := ["single"; "list"].

Section Output.
Context {W : Type} `{Writer W}.

Fixpoint printRecords (sink : W) (values : list string) : W * option error :=
  match values with
  | [] => (sink, None)
  | record :: rest =>
      match Fprintln sink record with
      | (sink', Some err) => (sink', Some err)
      | (sink', None) => printRecords sink' rest
      end
  end.

Definition encodeValues (options : options) (encoder : Encoder W)
    (values : slice) : Encoder W * option error :=
  if valueType options =? "single" then
    Encode encoder (OfString (nth 0 (elems values) EmptyString))
  else if valueType options =? "list" then
    Encode encoder (OfStrings values)
  else (encoder, None).

(** Here the plain case comes first in the [switch]. *)
Definition output (options : options) (sink : W) (values : slice)
  : W * option error :=
  if (valueType options =? "single") && negb (len values =? 1)%nat then
    (sink, Some (Cardinality (len values) values))
  else if outputFormat options =? "plain" then
    printRecords sink (elems values)
  else if outputFormat options =? "json" then
    let encoder := NewEncoder sink in
    let encoder := SetEscapeHTML encoder false in
    match encodeValues options encoder values with
    | (encoder, Some err) => (enc_w encoder, Some (Wrap err "error writing JSON"))
    | (encoder, None) => (enc_w encoder, None)
    end
  else (sink, None).
End Output.

Definition collectRecord (key : string) (values : slice) (record : string) : slice :=
  let pieces := SplitN record byte_eq 2 in
  if (1 <? List.length pieces)%nat && (nth 0 pieces EmptyString =? key)
  then append values (nth 1 pieces EmptyString)
  else values.

Definition collect (txtRecords : list string) (key : string) : slice :=
  fold_left (collectRecord key) txtRecords None.

Definition orDefault (values defaultValues : slice) : slice :=
  if (len values =? 0)%nat then defaultValues else values.

Definition checked (options : options) (key : string) (values : slice)
  : slice * option error :=
  if valueType options =? "single" then
    if (len values =? 0)%nat then (None, Some (NoValue key))
    else if (1 <? len values)%nat then
      (None, Some (TooManyValues (len values) key))
    else (values, None)
  else (values, None).

Definition lookUpValues (options : options) (txtRecords : list string)
    (key : string) (defaultValues : slice) : slice * option error :=
  let values := collect txtRecords key in
  let values := orDefault values defaultValues in
  checked options key values.

(** *** The DNS query and the entry point *)

Section Entry.
Context `{DnsLibrary}.

(** The loop over the answers: the character strings of each TXT record
    joined into one string; [results] starts nil. *)
Definition collectAnswer (results : slice) (answer : RR) : slice :=
  match answer with
  | TXT txt => append results (join EmptyString txt)
  | OtherRR => results
  end.

(** [config.Servers[0]] panics when resolv.conf names no server; no query
    has been sent by then. *)
Definition getTxtRecords (options : options) (domain : string) : outcome slice :=
  let domain :=
    if negb (HasSuffix domain (str1 byte_dot))
    then domain ++ str1 byte_dot
    else domain in
  match ClientConfigFromFile "/etc/resolv.conf" with
  | inr err => Failed (Wrapped err "error configuring DNS client")
  | inl config =>
      let query := mkQuery domain TypeTXT true in
      match Servers config with
      | [] => Panicked
      | server :: _ =>
          match Exchange query (server ++ ":" ++ Port config) with
          | inr err => Failed (Wrapped err "error executing DNS query")
          | inl response =>
              if (Rcode response =? RcodeSuccess)%nat then
                Returned (fold_left collectAnswer (Answer response) None)
              else if (Rcode response =? RcodeNameError)%nat then
                Failed (NoTxtRecords domain)
              else
                Failed (RemoteError (RcodeToString (Rcode response)))
          end
      end
  end.

Context {W : Type} `{Writer W}.

(** [main] from the return of [kingpin.Parse] on. *)
Definition main (options : options) (domain key : string)
    (defaultValues : slice) (stdout : W) : ending W :=
  let defaultValues :=
    match defaultValues with
    | None => Some []
    | Some _ => defaultValues
    end in
  if (valueType options =? "single") && (1 <? len defaultValues)%nat then
    Exit 1 stdout
      ("Got " ++ fmt_bad_n (len defaultValues)
         ++ " default values, but the value type is " ++ inQuotes "single"
         ++ ".  (Did you mean to set --type list?)")
  else
    match getTxtRecords options domain with
    | Panicked => Crash stdout
    | Failed err =>
        Exit 3 stdout
          ("Error doing DNS lookup:" ++ str1 byte_nl
             ++ Message err ++ str1 byte_nl)
    | Returned txtRecords =>
        match lookUpValues options (elems txtRecords) key defaultValues with
        | (_, Some err) =>
            Exit 4 stdout
              ("Error looking up values for key " ++ inQuotes key
                 ++ " in domain " ++ domain ++ ":" ++ str1 byte_nl
                 ++ Error err ++ str1 byte_nl)
        | (values, None) =>
            match output options stdout values with
            | (stdout', Some err) =>
                Exit 5 stdout' ("Error writing output values: " ++ Error err)
            | (stdout', None) => Exit 0 stdout' EmptyString
            end
        end
    end.
End Entry.

End Single.

(** ** The specification's reading of a record list

  The parser and the matching rule as the specification words them: a
  record without an equals sign is no pair; otherwise the key is what
  stands before the first one and the value all that stands after it; the
  values of the pairs whose key is the requested one are kept, in order. *)

Module Spec.
Import Go.

Definition parse (record : string) : option (string * string) :=
  match IndexByte record byte_eq with
  | None => None
  | Some i => Some (slice_to record i, slice_from record (i + 1))
  end.

Definition matchOf (key : string) (record : string) : list string :=
  match parse record with
  | Some (k, v) => if k =? key then [v] else []
  | None => []
  end.

Definition matchingValues (records : list string) (key : string) : list string :=
  flat_map (matchOf key) records.

(** [c] does not occur in [s]. *)
Definition noByte (s : string) (c : ascii) : Prop :=
  forall i, get i s <> Some c.

(** The first [c] of [s] is at position [i]. *)
Definition firstAt (s : string) (c : ascii) (i : nat) : Prop :=
  get i s = Some c /\ forall j, j < i -> get j s <> Some c.

(** The lines of the plain format: each value followed by a newline. *)
Definition line (v : string) : string := v ++ str1 byte_nl.

Fixpoint unlines (values : list string) : string :=
  match values with
  | [] => EmptyString
  | v :: rest => line v ++ unlines rest
  end.

(** Writing chunks one after the other, each in its own [Write], up to the
    first write that fails. *)
Fixpoint writeEach {W} `{Writer W} (sink : W) (chunks : list string)
  : W * option error :=
  match chunks with
  | [] => (sink, None)
  | p :: rest =>
      match Write sink p with
      | (sink', Some err) => (sink', Some err)
      | (sink', None) => writeEach sink' rest
      end
  end.

(** A JSON string literal that holds its bytes as they are. *)
Definition quoted (s : string) : string :=
  String byte_quote (s ++ str1 byte_quote).

(** A JSON array of such literals. *)
Definition arrayOf (items : list string) : string :=
  "[" ++ join "," items ++ "]".

(** The bytes a JSON string keeps as they are when HTML escaping is off:
    ASCII from the space on, the double quote and the backslash apart. *)
Definition plainByte (c : ascii) : Prop :=
  (0x20 <= byteN c < 0x80)%N /\ c <> byte_quote /\ c <> byte_bslash.

Fixpoint plainBytes (s : string) : Prop :=
  match s with
  | EmptyString => True
  | String c rest => plainByte c /\ plainBytes rest
  end.

(** The options of the single-file variant that an options value of
    [main.go] stands for: the name server plays no part in the core. *)
Definition forget (o : Main.options) : Single.options :=
  Single.mkOptions (Main.outputFormat o) (Main.valueType o).

(** The records of the README, used by the scenarios. *)
Definition readmeRecords : list string :=
  ["foo=bar"; "key=value"; "things=item1"; "things=item2"].

(** The core of [main] once the records are there: look the key up, then
    print to an empty buffer; the lookup error, if any, comes first. *)
Definition lookUpAndPrint (options : Main.options) (records : list string)
    (key : string) (defaults : slice) : string * option error :=
  match Main.lookUpValues options records key defaults with
  | (_, Some err) => (EmptyString, Some err)
  | (values, None) =>
      let '(buf, err) := Main.output options (mkBuffer EmptyString) values in
      (bytes buf, err)
  end.

End Spec.

(** ** Notions used to state properties of the entry points *)

Module Notions.
Import Go GoLib Spec.

(** A record counts for a key when it parses to a pair with that key. *)
Definition relevant (key : string) (record : string) : bool :=
  match parse record with
  | Some (k, _) => k =? key
  | None => false
  end.

(** The record that stores a pair. *)
Definition recordOf (pair : string * string) : string :=
  fst pair ++ String byte_eq (snd pair).

(** The values of the pairs with a given key, in order. *)
Definition valuesOf (key : string) (pairs : list (string * string)) : list string :=
  map snd (filter (fun pair => fst pair =? key) pairs).

(** Every byte of a string satisfies [P]. *)
Fixpoint allBytes (P : ascii -> Prop) (s : string) : Prop :=
  match s with
  | EmptyString => True
  | String c rest => P c /\ allBytes P rest
  end.

(** No control character: every byte is at least the space. *)
Definition noControl (s : string) : Prop :=
  allBytes (fun c => (0x20 <= byteN c)%N) s.

(** The name [getTxtRecords] asks for: the domain with a final dot. *)
Definition fqdn (domain : string) : string :=
  if HasSuffix domain (str1 byte_dot) then domain else domain ++ str1 byte_dot.

(** The strings of the TXT records of an answer section, each record's
    character strings joined, in order. *)
Definition txtStrings (answers : list RR) : list string :=
  flat_map (fun answer =>
              match answer with
              | TXT txt => [join EmptyString txt]
              | OtherRR => []
              end) answers.

(** The path of a DNS URI without its leading slash, if it has one. *)
Definition stripSlash (path : string) : string :=
  match path with
  | String c rest => if Ascii.eqb c byte_slash then rest else path
  | EmptyString => path
  end.

End Notions.

(** ** Stand-ins for the collaborators, to run the entry points *)

Module Fixtures.
Import Go GoLib Spec.

(** The zone of the README. *)
Definition zone (domain : string) : list string + failure :=
  if domain =? "foo.example.com" then inl readmeRecords
  else inr (Foreign "no such host").

(** A URI parser that knows a few sources by heart. *)
Definition knownURIs : list (string * Main.uri) :=
  [ ("dns:foo.example.com",
      Main.mkUri "dns" EmptyString "foo.example.com" EmptyString EmptyString);
    ("dns://192.0.2.53/foo.example.com",
      Main.mkUri "dns" "192.0.2.53" "/foo.example.com" EmptyString EmptyString);
    ("dns:foo.example.com?type=TXT",
      Main.mkUri "dns" EmptyString "foo.example.com" "type=TXT" EmptyString);
    ("dns:foo.example.com#top",
      Main.mkUri "dns" EmptyString "foo.example.com" EmptyString "top");
    ("https://foo.example.com",
      Main.mkUri "https" "foo.example.com" EmptyString EmptyString EmptyString) ].

Definition lookupURI (source : string) : Main.uri + failure :=
  match find (fun entry => fst entry =? source) knownURIs with
  | Some entry => inl (snd entry)
  | None => inr (Foreign "invalid URI")
  end.

(** A provider is the name server and the domain it was made for. *)
#[export] Instance readme : Main.Collaborators (string * string) := {|
  Main.parseURI := lookupURI;
  Main.makeDnsProvider := fun _ nameserver domain => inl (nameserver, domain);
  Main.getTxtRecords := fun provider => zone (snd provider)
|}.

(** A resolver with one server that knows the zone of the README, the
    last record split in two character strings. *)
Definition answerFor (q : Query) : Response :=
  if qName q =? "foo.example.com." then
    mkResponse RcodeSuccess
      [TXT ["foo=bar"]; OtherRR; TXT ["key=value"];
       TXT ["things=item1"]; TXT ["things=it"; "em2"]]
  else if qName q =? "empty.example.com." then mkResponse RcodeSuccess [OtherRR]
  else if qName q =? "broken.example.com." then mkResponse 2 []
  else mkResponse RcodeNameError [].

Definition rcodeNames (rcode : nat) : string :=
  match rcode with
  | 0 => "NOERROR"
  | 2 => "SERVFAIL"
  | 3 => "NXDOMAIN"
  | _ => EmptyString
  end.

#[export] Instance resolver : DnsLibrary := {|
  ClientConfigFromFile := fun _ => inl (mkClientConfig ["192.0.2.53"] "53");
  Exchange := fun q _ => inl (answerFor q);
  RcodeToString := rcodeNames
|}.

(** A machine whose resolv.conf names no server. *)
Definition noServers : DnsLibrary := {|
  ClientConfigFromFile := fun _ => inl (mkClientConfig [] "53");
  Exchange := fun q _ => inl (answerFor q);
  RcodeToString := rcodeNames
|}.

End Fixtures.

(** ** Strings: positions and pieces *)

Section StringFacts.
Import Go Spec.

Lemma substring_all (s : string) : substring 0 (String.length s) s = s.
Proof.
  induction s as [|b s IH]; simpl; [reflexivity | now rewrite IH].
Qed.

Lemma slice_from_0 (s : string) : slice_from s 0 = s.
Proof.
  unfold slice_from. rewrite Nat.sub_0_r. apply substring_all.
Qed.

Lemma slice_from_S (b : ascii) (s : string) (m : nat) :
  slice_from (String b s) (S m) = slice_from s m.
Proof. reflexivity. Qed.

Lemma slice_to_S (b : ascii) (s : string) (m : nat) :
  slice_to (String b s) (S m) = String b (slice_to s m).
Proof. reflexivity. Qed.

Lemma IndexByte_None (s : string) (c : ascii) :
  IndexByte s c = None <-> noByte s c.
Proof.
  unfold noByte. induction s as [|b s IH]; simpl.
  - split; [intros _ i; discriminate | reflexivity].
  - destruct (Ascii.eqb b c) eqn:E.
    + apply Ascii.eqb_eq in E. subst b. split; [discriminate|].
      intros Hno. now specialize (Hno 0).
    + apply Ascii.eqb_neq in E.
      destruct (IndexByte s c) as [m|].
      * split; [discriminate|]. intros Hno.
        assert (Hs : Some m = None) by (apply IH; intros i; apply (Hno (S i))).
        discriminate.
      * split; [|reflexivity]. intros _ [|i]; simpl.
        -- congruence.
        -- now apply IH.
Qed.

Lemma IndexByte_Some (s : string) (c : ascii) (m : nat) :
  IndexByte s c = Some m <-> firstAt s c m.
Proof.
  unfold firstAt. revert m. induction s as [|b s IH]; intros m; simpl.
  - split; [discriminate | intros [H _]; destruct m; discriminate].
  - destruct (Ascii.eqb b c) eqn:E.
    + apply Ascii.eqb_eq in E. subst b. split.
      * intros [= <-]. split; [reflexivity | intros j Hj; lia].
      * intros [_ Hfirst]. destruct m as [|m]; [reflexivity|].
        exfalso. now apply (Hfirst 0); [lia|].
    + apply Ascii.eqb_neq in E. split.
      * destruct (IndexByte s c) as [m'|] eqn:Em; [|discriminate].
        intros [= <-]. destruct (proj1 (IH m') eq_refl) as [Hget Hfirst].
        split; [exact Hget|]. intros [|j] Hj; simpl.
        -- congruence.
        -- apply Hfirst. lia.
      * intros [Hget Hfirst]. destruct m as [|m]; simpl in Hget.
        -- congruence.
        -- assert (Hm : IndexByte s c = Some m).
           { apply IH. split; [exact Hget|]. intros j Hj.
             apply (Hfirst (S j)). lia. }
           now rewrite Hm.
Qed.

(** The two pieces and the separator make up the string again. *)
Lemma IndexByte_pieces (s : string) (c : ascii) (m : nat) :
  IndexByte s c = Some m ->
  s = slice_to s m ++ String c (slice_from s (m + 1)).
Proof.
  revert m. induction s as [|b s IH]; intros m; simpl; [discriminate|].
  destruct (Ascii.eqb b c) eqn:E.
  - apply Ascii.eqb_eq in E. subst b. intros [= <-].
    change (0 + 1) with 1. rewrite slice_from_S, slice_from_0. reflexivity.
  - destruct (IndexByte s c) as [m'|] eqn:Em; [|discriminate].
    intros [= <-]. change (S m' + 1) with (S (m' + 1)).
    rewrite slice_from_S, slice_to_S. simpl.
    f_equal. now apply IH.
Qed.

Lemma IndexByte_app (k v : string) (c : ascii) :
  IndexByte k c = None ->
  IndexByte (k ++ String c v) c = Some (String.length k).
Proof.
  induction k as [|b k IH]; simpl.
  - now rewrite Ascii.eqb_refl.
  - destruct (Ascii.eqb b c); [discriminate|].
    destruct (IndexByte k c); [discriminate|].
    intros _. now rewrite IH.
Qed.

Lemma slice_to_app (k v : string) :
  slice_to (k ++ v) (String.length k) = k.
Proof.
  induction k as [|b k IH]; simpl.
  - unfold slice_to. now destruct v.
  - rewrite slice_to_S. now rewrite IH.
Qed.

Lemma slice_from_app (k v : string) :
  slice_from (k ++ v) (String.length k) = v.
Proof.
  induction k as [|b k IH]; simpl.
  - apply slice_from_0.
  - now rewrite slice_from_S.
Qed.

(** What [SplitN record "=" 2] returns, by the position of the first
    equals sign. *)
Lemma SplitN_2 (record : string) :
  SplitN record byte_eq 2 =
    match IndexByte record byte_eq with
    | None => [record]
    | Some i => [slice_to record i; slice_from record (i + 1)]
    end.
Proof. simpl. now destruct (IndexByte record byte_eq). Qed.

Lemma SplitN_2_app (k v : string) :
  IndexByte k byte_eq = None ->
  SplitN (k ++ String byte_eq v) byte_eq 2 = [k; v].
Proof.
  intros Hk. rewrite SplitN_2, (IndexByte_app _ v _ Hk).
  rewrite slice_to_app.
  replace (k ++ String byte_eq v) with ((k ++ str1 byte_eq) ++ v).
  - replace (String.length k + 1) with (String.length (k ++ str1 byte_eq)).
    + now rewrite slice_from_app.
    + clear. induction k; simpl; [reflexivity | now rewrite IHk].
  - clear. induction k; simpl; [reflexivity | now rewrite IHk].
Qed.

End StringFacts.

(** ** The loop of [lookUpValues] against the specification's reading *)

Section LookupFacts.
Import Go Spec.

(** The two variants have the same loop, default rule and check. *)
Lemma Single_collect (records : list string) (key : string) :
  Single.collect records key = Main.collect records key.
Proof. reflexivity. Qed.

Lemma Single_orDefault (values defaults : slice) :
  Single.orDefault values defaults = Main.orDefault values defaults.
Proof. reflexivity. Qed.

(** One turn appends the value of a pair with the requested key, and
    nothing else. *)
Lemma collectRecord_matchOf (key : string) (values : slice) (record : string) :
  Main.collectRecord key values record =
    match matchOf key record with
    | [] => values
    | l => Some (elems values ++ l)%list
    end.
Proof.
  unfold Main.collectRecord, matchOf, parse. rewrite SplitN_2.
  destruct (IndexByte record byte_eq) as [i|]; simpl; [|reflexivity].
  now destruct (slice_to record i =? key).
Qed.

Lemma collect_from (key : string) (records : list string) (values : slice) :
  fold_left (Main.collectRecord key) records values =
    match matchingValues records key with
    | [] => values
    | l => Some (elems values ++ l)%list
    end.
Proof.
  unfold matchingValues.
  revert values. induction records as [|record records IH]; intros values; simpl.
  - reflexivity.
  - rewrite IH, collectRecord_matchOf.
    destruct (matchOf key record) as [|v l]; simpl; [reflexivity|].
    destruct (flat_map (matchOf key) records) as [|v' l'] eqn:E; simpl.
    + now rewrite app_nil_r.
    + destruct (l ++ v' :: l')%list eqn:E'.
      * now destruct l.
      * rewrite <- E'. now rewrite <- app_assoc.
Qed.

(** The accumulator is nil when nothing matches, and the matching
    values, in order, otherwise. *)
Lemma collect_matchingValues (records : list string) (key : string) :
  Main.collect records key =
    match matchingValues records key with
    | [] => None
    | l => Some l
    end.
Proof. unfold Main.collect. now rewrite collect_from. Qed.

Lemma collect_elems (records : list string) (key : string) :
  elems (Main.collect records key) = matchingValues records key.
Proof.
  rewrite collect_matchingValues.
  now destruct (matchingValues records key).
Qed.

Lemma len_one (values : slice) :
  len values = 1 -> exists v, values = Some [v].
Proof.
  destruct values as [[|v [|w l]]|]; simpl; try discriminate.
  intros _. now exists v.
Qed.

End LookupFacts.

(** ** Properties of the lookup *)

Section LookupProperties.
Import Go Spec.

(** C3: a record without an equals sign yields no pieces to compare and
    leaves the accumulator as it is, whatever the key; a record whose
    first equals sign is at position [i] is split into the bytes before
    [i] and all the bytes after [i], and that second piece is what a
    matching turn appends; the value may be empty or hold further equals
    signs, since for every key [k] without an equals sign and every [v]
    the record [k=v] splits into [k] and [v]. *)
Theorem C3_record_split :
  (forall record, noByte record byte_eq ->
     SplitN record byte_eq 2 = [record] /\
     parse record = None /\
     forall key values, Main.collectRecord key values record = values)
  /\
  (forall record i, firstAt record byte_eq i ->
     SplitN record byte_eq 2 = [slice_to record i; slice_from record (i + 1)] /\
     parse record = Some (slice_to record i, slice_from record (i + 1)) /\
     record = slice_to record i ++ String byte_eq (slice_from record (i + 1)) /\
     forall values,
       Main.collectRecord (slice_to record i) values record =
         append values (slice_from record (i + 1)))
  /\
  (forall k v, noByte k byte_eq ->
     firstAt (k ++ String byte_eq v) byte_eq (String.length k) /\
     SplitN (k ++ String byte_eq v) byte_eq 2 = [k; v]).
Proof.
  split; [|split].
  - intros record Hno. apply IndexByte_None in Hno.
    unfold parse, Main.collectRecord. rewrite SplitN_2, Hno.
    repeat split.
  - intros record i Hfirst. apply IndexByte_Some in Hfirst.
    unfold parse, Main.collectRecord.
    rewrite SplitN_2, Hfirst. repeat split.
    + now apply IndexByte_pieces.
    + intros values. simpl. now rewrite String.eqb_refl.
  - intros k v Hno. apply IndexByte_None in Hno. split.
    + apply IndexByte_Some. now apply IndexByte_app.
    + now apply SplitN_2_app.
Qed.

Lemma C3_record_split_witness :
  SplitN "abc" byte_eq 2 = ["abc"]
  /\ SplitN "Some Key=c29tZSBkYXRhCg==" byte_eq 2 = ["Some Key"; "c29tZSBkYXRhCg=="]
  /\ SplitN "empty value=" byte_eq 2 = ["empty value"; EmptyString].
Proof.
  destruct C3_record_split as (Hnone & Hfirst & Hkv).
  split; [|split].
  - apply (Hnone "abc").
    intros [|[|[|[|i]]]]; simpl; discriminate.
  - apply (Hfirst "Some Key=c29tZSBkYXRhCg==" 8). split.
    + reflexivity.
    + intros j Hj.
      do 8 (destruct j as [|j]; [simpl; discriminate|]). lia.
  - apply (Hkv "empty value" EmptyString).
    intros i. do 11 (destruct i as [|i]; [simpl; discriminate|]).
    simpl; discriminate.
Defined.

(** C4: the accumulator built by the loop, before defaults, holds exactly
    the values of the records whose key is the requested one, in record
    order and with repetitions (it is nil when there is none); keys are
    compared byte for byte, so the key [K] matches neither a record with
    key [K ] (trailing space) nor one with key [k], whatever the values. *)
Theorem C4_accumulator_is_matching_values :
  (forall records key,
     elems (Main.collect records key) = matchingValues records key /\
     (matchingValues records key = [] <-> Main.collect records key = None))
  /\
  (forall v values,
     Main.collectRecord "K" values ("K =" ++ v) = values /\
     Main.collectRecord "K" values ("k=" ++ v) = values /\
     Main.collectRecord "K" values ("K=" ++ v) = append values v)
  /\
  Main.collect ["K =1"; "k=2"; "K=3"; "x"; "K=3"; "K=="] "K"
    = Some ["3"; "3"; "="].
Proof.
  split; [|split].
  - intros records key. split; [apply collect_elems|].
    rewrite collect_matchingValues.
    destruct (matchingValues records key); split; congruence.
  - intros v values. unfold Main.collectRecord. simpl.
    rewrite !slice_from_S, slice_from_0. repeat split.
  - reflexivity.
Qed.

(** C2: default substitution is all or nothing.  When no record matches
    the key, the values that reach the cardinality check are the default
    set itself, in the order given; when at least one record matches they
    are the matching values and nothing else, whatever the defaults are.
    A lookup that is not in single mode returns them as they are. *)
Theorem C2_defaults_all_or_nothing :
  forall records key defaults,
    (matchingValues records key = [] ->
       Main.orDefault (Main.collect records key) defaults = defaults /\
       forall options, Main.valueType options <> "single" ->
         Main.lookUpValues options records key defaults = (defaults, None))
    /\
    (matchingValues records key <> [] ->
       Main.orDefault (Main.collect records key) defaults
         = Some (matchingValues records key) /\
       forall options, Main.valueType options <> "single" ->
         Main.lookUpValues options records key defaults
         = (Some (matchingValues records key), None)).
Proof.
  intros records key defaults. split; intros Hm.
  - assert (Hd : Main.orDefault (Main.collect records key) defaults = defaults).
    { rewrite collect_matchingValues, Hm. reflexivity. }
    split; [exact Hd|]. intros options Hmode.
    unfold Main.lookUpValues, Main.checked. rewrite Hd.
    apply String.eqb_neq in Hmode. now rewrite Hmode.
  - assert (Hd : Main.orDefault (Main.collect records key) defaults
                 = Some (matchingValues records key)).
    { rewrite collect_matchingValues.
      destruct (matchingValues records key); [congruence | reflexivity]. }
    split; [exact Hd|]. intros options Hmode.
    unfold Main.lookUpValues, Main.checked. rewrite Hd.
    apply String.eqb_neq in Hmode. now rewrite Hmode.
Qed.

Lemma C2_defaults_all_or_nothing_witness :
  Main.orDefault (Main.collect ["foo=bar"] "theanswer") (Some ["42"; "43"])
    = Some ["42"; "43"]
  /\ Main.orDefault (Main.collect ["foo=bar"; "foo=baz"] "foo") (Some ["42"])
    = Some ["bar"; "baz"].
Proof.
  split.
  - apply (C2_defaults_all_or_nothing ["foo=bar"] "theanswer" (Some ["42"; "43"])).
    reflexivity.
  - apply (C2_defaults_all_or_nothing ["foo=bar"; "foo=baz"] "foo" (Some ["42"])).
    simpl. discriminate.
Defined.

(** C5: in list mode the lookup never fails: it returns the accumulator
    after default substitution, whatever its length, the empty sequence
    included. *)
Theorem C5_list_mode_succeeds :
  forall options records key defaults,
    Main.valueType options = "list" ->
    Main.lookUpValues options records key defaults
      = (Main.orDefault (Main.collect records key) defaults, None).
Proof.
  intros options records key defaults Hmode.
  unfold Main.lookUpValues, Main.checked. now rewrite Hmode.
Qed.

Lemma C5_list_mode_succeeds_witness :
  Main.lookUpValues (Main.mkOptions "plain" "list" EmptyString)
    ["foo=bar"] "things" (Some [])
  = (Some [], None).
Proof.
  apply (C5_list_mode_succeeds (Main.mkOptions "plain" "list" EmptyString)
           ["foo=bar"] "things" (Some [])).
  reflexivity.
Defined.

(** The check of single mode, by the length of the values that reach it. *)
Lemma checked_single (key : string) (values : slice) (result : slice * option error) :
  result =
    (if (len values =? 0)%nat then (None, Some (NoValue key))
     else if (1 <? len values)%nat
          then (None, Some (TooManyValues (len values) key))
          else (values, None)) ->
  (len values = 1 -> (exists v, values = Some [v]) /\ result = (values, None))
  /\ (len values = 0 -> result = (None, Some (NoValue key)))
  /\ (1 < len values ->
        result = (None, Some (TooManyValues (len values) key))).
Proof.
  intros ->. repeat split.
  - now apply len_one.
  - now rewrite H.
  - intros ->. reflexivity.
  - intros Hlen.
    destruct (len values) as [|[|n]] eqn:E; [lia | lia | reflexivity].
Qed.

(** C1: in single mode, in both variants, the lookup is decided by the
    number of values left after default substitution: exactly one, it
    returns that value; none, it fails with the no-value error naming the
    key; more than one, it fails with the too-many-values error, which
    carries that number and the key and prints both.  So when no record
    matches and two or more defaults are given, the lookup fails on the
    number of defaults. *)
Theorem C1_single_mode_cardinality :
  forall records key defaults,
    (forall options, Main.valueType options = "single" ->
       let acc := Main.orDefault (Main.collect records key) defaults in
       let result := Main.lookUpValues options records key defaults in
       (len acc = 1 -> (exists v, acc = Some [v]) /\ result = (acc, None))
       /\ (len acc = 0 -> result = (None, Some (NoValue key)))
       /\ (1 < len acc ->
             result = (None, Some (TooManyValues (len acc) key)))
       /\ (matchingValues records key = [] -> 2 <= len defaults ->
             result = (None, Some (TooManyValues (len defaults) key))))
    /\
    (forall options, Single.valueType options = "single" ->
       let acc := Single.orDefault (Single.collect records key) defaults in
       let result := Single.lookUpValues options records key defaults in
       (len acc = 1 -> (exists v, acc = Some [v]) /\ result = (acc, None))
       /\ (len acc = 0 -> result = (None, Some (NoValue key)))
       /\ (1 < len acc ->
             result = (None, Some (TooManyValues (len acc) key)))
       /\ (matchingValues records key = [] -> 2 <= len defaults ->
             result = (None, Some (TooManyValues (len defaults) key))))
    /\
    (forall count,
       Error (TooManyValues count key)
       = fmt_d count ++ " values found for key " ++ key
           ++ ", but only 1 was expected").
Proof.
  intros records key defaults.
  assert (Hnone : matchingValues records key = [] ->
                  Main.orDefault (Main.collect records key) defaults = defaults).
  { intros Hm. rewrite collect_matchingValues, Hm. reflexivity. }
  split; [|split].
  - intros options Hmode acc result.
    assert (Hres : result =
      (if (len acc =? 0)%nat then (None, Some (NoValue key))
       else if (1 <? len acc)%nat
            then (None, Some (TooManyValues (len acc) key))
            else (acc, None))).
    { subst result acc. unfold Main.lookUpValues, Main.checked.
      now rewrite Hmode. }
    destruct (checked_single key acc result Hres) as (H1 & H0 & Hmany).
    split; [exact H1 | split; [exact H0 | split; [exact Hmany|]]].
    intros Hm Hlen. subst acc. rewrite (Hnone Hm) in Hmany.
    apply Hmany. lia.
  - intros options Hmode acc result.
    assert (Hres : result =
      (if (len acc =? 0)%nat then (None, Some (NoValue key))
       else if (1 <? len acc)%nat
            then (None, Some (TooManyValues (len acc) key))
            else (acc, None))).
    { subst result acc. unfold Single.lookUpValues, Single.checked.
      now rewrite Hmode. }
    destruct (checked_single key acc result Hres) as (H1 & H0 & Hmany).
    split; [exact H1 | split; [exact H0 | split; [exact Hmany|]]].
    intros Hm Hlen. subst acc.
    rewrite Single_orDefault, Single_collect, (Hnone Hm) in Hmany.
    apply Hmany. lia.
  - reflexivity.
Qed.

Lemma C1_single_mode_cardinality_witness :
  Main.lookUpValues (Main.mkOptions "plain" "single" EmptyString)
    ["k=1"; "k=2"] "k" (Some [])
  = (None, Some (TooManyValues 2 "k"))
  /\ Single.lookUpValues (Single.mkOptions "plain" "single")
       [] "theanswer" (Some ["42"; "43"; "44"])
     = (None, Some (TooManyValues 3 "theanswer"))
  /\ Main.lookUpValues (Main.mkOptions "json" "single" EmptyString)
       ["foo=bar"; "key=value"] "key" (Some [])
     = (Some ["value"], None)
  /\ Main.lookUpValues (Main.mkOptions "json" "single" EmptyString)
       ["foo=bar"; "key=value"] "nokey" (Some [])
     = (None, Some (NoValue "nokey")).
Proof.
  split; [|split; [|split]].
  - destruct (C1_single_mode_cardinality ["k=1"; "k=2"] "k" (Some []))
      as (HM & _ & _).
    destruct (HM (Main.mkOptions "plain" "single" EmptyString) eq_refl)
      as (_ & _ & Hmany & _).
    apply Hmany. vm_compute. lia.
  - destruct (C1_single_mode_cardinality [] "theanswer" (Some ["42"; "43"; "44"]))
      as (_ & HS & _).
    destruct (HS (Single.mkOptions "plain" "single") eq_refl)
      as (_ & _ & _ & Hdef).
    apply Hdef; [reflexivity | vm_compute; lia].
  - destruct (C1_single_mode_cardinality ["foo=bar"; "key=value"] "key" (Some []))
      as (HM & _ & _).
    destruct (HM (Main.mkOptions "json" "single" EmptyString) eq_refl)
      as (H1 & _).
    apply H1. reflexivity.
  - destruct (C1_single_mode_cardinality ["foo=bar"; "key=value"] "nokey" (Some []))
      as (HM & _ & _).
    destruct (HM (Main.mkOptions "json" "single" EmptyString) eq_refl)
      as (_ & H0 & _).
    apply H0. reflexivity.
Defined.

End LookupProperties.

(** ** The formatter: the sequence of writes and the JSON encoder *)

Section OutputFacts.
Import Go Spec.

Lemma append_assoc (a b c : string) : (a ++ b) ++ c = a ++ (b ++ c).
Proof. induction a as [|x a IH]; simpl; [reflexivity | now rewrite IH]. Qed.

Lemma append_nil_r (a : string) : a ++ EmptyString = a.
Proof. induction a as [|x a IH]; simpl; [reflexivity | now rewrite IH]. Qed.

Lemma length_slice_from (s : string) (m : nat) :
  String.length (slice_from s m) = String.length s - m.
Proof.
  unfold slice_from. revert m. induction s as [|b s IH]; intros m.
  - now destruct m.
  - destruct m as [|m].
    + rewrite Nat.sub_0_r, substring_all. reflexivity.
    + simpl. apply IH.
Qed.

(** A rune of a non-empty string is at least one byte wide. *)
Lemma DecodeRuneInString_size (c : ascii) (rest : string) :
  1 <= snd (DecodeRuneInString (String c rest)).
Proof.
  unfold DecodeRuneInString.
  destruct (first (byteN c)) as [| |sz lo hi]; simpl; try lia.
  repeat match goal with
         | |- context [if ?b then _ else _] => destruct b; simpl; try lia
         | |- context [match ?t with EmptyString => _ | String _ _ => _ end] =>
             destruct t; simpl; try lia
         end.
Qed.

(** Any fuel from the length of the string on gives the same output: the
    loop of [appendString] ends on every string. *)
Lemma appendRunes_fuel (escapeHTML : bool) (f1 f2 : nat) (src : string) :
  String.length src <= f1 -> String.length src <= f2 ->
  appendRunes f1 escapeHTML src = appendRunes f2 escapeHTML src.
Proof.
  revert f2 src. induction f1 as [|f1 IH]; intros f2 src H1 H2.
  - destruct src; simpl in H1; [|lia]. now destruct f2.
  - destruct f2 as [|f2].
    + destruct src; simpl in H2; [reflexivity | lia].
    + destruct src as [|c rest]; [reflexivity|].
      simpl in H1, H2.
      assert (Hrest : appendRunes f1 escapeHTML rest
                      = appendRunes f2 escapeHTML rest) by (apply IH; lia).
      assert (Hafter : forall size, 1 <= size ->
                appendRunes f1 escapeHTML (slice_from (String c rest) size)
                = appendRunes f2 escapeHTML (slice_from (String c rest) size)).
      { intros size Hsize.
        apply IH; rewrite length_slice_from; cbn [String.length]; lia. }
      cbn [appendRunes].
      destruct (byteN c <? RuneSelf)%N.
      * now rewrite Hrest.
      * pose proof (DecodeRuneInString_size c rest) as Hsz.
        destruct (DecodeRuneInString (String c rest)) as [r size].
        simpl in Hsz. now rewrite (Hafter size Hsz).
Qed.

Lemma byteN_inj (c d : ascii) : byteN c = byteN d -> c = d.
Proof.
  unfold byteN. intros Heq.
  rewrite <- (ascii_N_embedding c), <- (ascii_N_embedding d). now rewrite Heq.
Qed.

Lemma plainByte_safe (c : ascii) :
  plainByte c -> (byteN c <? RuneSelf)%N = true /\ safeSet (byteN c) = true.
Proof.
  intros ([Hlo Hhi] & Hq & Hb). unfold RuneSelf, safeSet.
  assert (byteN c <> 0x22)%N by (intros E; apply Hq, byteN_inj; exact E).
  assert (byteN c <> 0x5C)%N by (intros E; apply Hb, byteN_inj; exact E).
  split.
  - now apply N.ltb_lt.
  - rewrite !andb_true_iff, !negb_true_iff. repeat split.
    + now apply N.leb_le.
    + now apply N.ltb_lt.
    + now apply N.eqb_neq.
    + now apply N.eqb_neq.
Qed.

(** With HTML escaping off, a string of plain bytes is copied as it is. *)
Lemma appendRunes_plain (s : string) :
  plainBytes s -> appendRunes (String.length s) false s = s.
Proof.
  induction s as [|c s IH]; simpl; [reflexivity|].
  intros [Hc Hs]. destruct (plainByte_safe c Hc) as [Hself Hsafe].
  rewrite Hself, Hsafe, orb_true_r. now rewrite IH.
Qed.

Lemma appendString_plain (s : string) :
  plainBytes s -> appendString s false = quoted s.
Proof.
  intros Hs. unfold appendString, quoted. now rewrite appendRunes_plain.
Qed.

(** The plain loop is one write per line. *)
Lemma printRecords_writeEach {W} `{Writer W} (sink : W) (values : list string) :
  Main.printRecords sink values = writeEach sink (map line values).
Proof.
  revert sink. induction values as [|v values IH]; intros sink; simpl.
  - reflexivity.
  - unfold Fprintln, line.
    destruct (Write sink (v ++ str1 byte_nl)) as [sink' [err|]]; [reflexivity|].
    apply IH.
Qed.

Lemma writeEach_lines_Buffer (buf : Buffer) (values : list string) :
  writeEach buf (map line values)
  = (mkBuffer (bytes buf ++ unlines values), None).
Proof.
  revert buf. induction values as [|v values IH]; intros [b]; simpl.
  - now rewrite append_nil_r.
  - unfold Write, Buffer_Writer at 1. simpl.
    rewrite IH. simpl. now rewrite append_assoc.
Qed.

(** The formatters of the two variants differ in the order of the cases
    of their [switch] only. *)
Lemma output_forget {W} `{Writer W} (o : Main.options) (sink : W) (values : slice) :
  Main.output o sink values = Single.output (forget o) sink values.
Proof.
  unfold Main.output, Single.output, forget. simpl.
  destruct ((Main.valueType o =? "single") && negb (len values =? 1)%nat);
    [reflexivity|].
  destruct (Main.outputFormat o =? "json") eqn:Ej;
    destruct (Main.outputFormat o =? "plain") eqn:Ep; try reflexivity.
  apply String.eqb_eq in Ej, Ep. congruence.
Qed.

Lemma lookUpValues_forget (o : Main.options) (records : list string)
    (key : string) (defaults : slice) :
  Main.lookUpValues o records key defaults
  = Single.lookUpValues (forget o) records key defaults.
Proof. reflexivity. Qed.

(** When the check at the head of [output] lets the call through. *)
Lemma precheck_passes (mode : string) (values : slice) :
  (mode = "single" -> len values = 1) ->
  (mode =? "single") && negb (len values =? 1)%nat = false.
Proof.
  intros Hpass. destruct (mode =? "single") eqn:E; [|reflexivity].
  apply String.eqb_eq in E. rewrite (Hpass E). reflexivity.
Qed.

End OutputFacts.

(** ** Properties of the formatter *)

Section OutputProperties.
Import Go Spec.

(** C6: in single mode a value set whose length is not 1 makes the
    formatter fail with the cardinality error at once, in both variants
    and for every output format: the sink comes back as it was given, for
    every kind of sink, so no write was made. *)
Theorem C6_single_precheck_writes_nothing :
  forall (W : Type) (writer : Writer W) (sink : W) (values : slice),
    len values <> 1 ->
    (forall options, Main.valueType options = "single" ->
       Main.output options sink values
       = (sink, Some (Cardinality (len values) values)))
    /\
    (forall options, Single.valueType options = "single" ->
       Single.output options sink values
       = (sink, Some (Cardinality (len values) values))).
Proof.
  intros W writer sink values Hlen.
  apply Nat.eqb_neq in Hlen.
  split; intros options Hmode.
  - unfold Main.output. now rewrite Hmode, Hlen.
  - unfold Single.output. now rewrite Hmode, Hlen.
Qed.

Lemma C6_single_precheck_writes_nothing_witness :
  Main.output (Main.mkOptions "json" "single" EmptyString)
    (mkBuffer "kept") (Some ["1"; "2"])
  = (mkBuffer "kept", Some (Cardinality 2 (Some ["1"; "2"])))
  /\ Single.output (Single.mkOptions "plain" "single")
       (mkLimited 0 EmptyString) None
     = (mkLimited 0 EmptyString, Some (Cardinality 0 None)).
Proof.
  split.
  - apply (C6_single_precheck_writes_nothing Buffer _ (mkBuffer "kept")
             (Some ["1"; "2"])); [vm_compute; lia | reflexivity].
  - apply (C6_single_precheck_writes_nothing Limited _ (mkLimited 0 EmptyString)
             None); [vm_compute; lia | reflexivity].
Defined.

(** C7, as the specification states it, fails on Scenario B: the bytes
    written for the key [things] are not the bare array, because the
    encoder ends every value it writes with a newline. *)
Lemma C7_scenarioB_not_bare_array :
  let options := Main.mkOptions "json" "list" EmptyString in
  let values := fst (Main.lookUpValues options readmeRecords "things" (Some [])) in
  bytes (fst (Main.output options (mkBuffer EmptyString) values))
  <> arrayOf [quoted "item1"; quoted "item2"].
Proof. vm_compute. discriminate. Qed.

(** C7, amended: in json format and list mode the formatter makes one
    write, of the JSON array of the string literals of the values (HTML
    escaping off) followed by the newline the encoder ends every value
    with; a failure of that write comes back wrapped.  A string of plain
    bytes, the HTML-sensitive ones included, is written between quotes as
    it is.  A nil value set is written as [null], not as an array.  For
    the README records and the key [things] the sink receives the array
    of Scenario B and a newline. *)
Theorem C7_json_list_array_and_newline :
  (forall (W : Type) (writer : Writer W) options (sink : W) (l : list string),
     Main.outputFormat options = "json" ->
     Main.valueType options = "list" ->
     Main.output options sink (Some l)
     = match Write sink
               (arrayOf (map (fun v => appendString v false) l) ++ str1 byte_nl)
       with
       | (sink', Some err) => (sink', Some (Wrap err "error writing JSON"))
       | (sink', None) => (sink', None)
       end)
  /\
  (forall options (buf : Buffer) (l : list string),
     Main.outputFormat options = "json" ->
     Main.valueType options = "list" ->
     Forall plainBytes l ->
     Main.output options buf (Some l)
     = (mkBuffer (bytes buf ++ arrayOf (map quoted l) ++ str1 byte_nl), None))
  /\
  (plainBytes "<>&/" /\ appendString "<>&/" false = quoted "<>&/")
  /\
  (forall options (buf : Buffer),
     Main.outputFormat options = "json" ->
     Main.valueType options = "list" ->
     Main.output options buf None
     = (mkBuffer (bytes buf ++ "null" ++ str1 byte_nl), None))
  /\
  (let options := Main.mkOptions "json" "list" EmptyString in
   let values := fst (Main.lookUpValues options readmeRecords "things" (Some [])) in
   Main.output options (mkBuffer EmptyString) values
   = (mkBuffer (arrayOf [quoted "item1"; quoted "item2"] ++ str1 byte_nl), None)).
Proof.
  assert (Hgen : forall (W : Type) (writer : Writer W) options (sink : W) l,
     Main.outputFormat options = "json" ->
     Main.valueType options = "list" ->
     Main.output options sink (Some l)
     = match Write sink
               (arrayOf (map (fun v => appendString v false) l) ++ str1 byte_nl)
       with
       | (sink', Some err) => (sink', Some (Wrap err "error writing JSON"))
       | (sink', None) => (sink', None)
       end).
  { intros W writer options sink l Hfmt Hmode.
    unfold Main.output, Main.encodeValues. rewrite Hfmt, Hmode. simpl.
    unfold Encode. simpl. unfold encodeArray, arrayOf.
    now destruct (Write sink _) as [sink' [err|]]. }
  split; [exact Hgen|]. split; [|split; [|split]].
  - intros options buf l Hfmt Hmode Hplain.
    rewrite (Hgen _ _ options buf l Hfmt Hmode).
    unfold Write, Buffer_Writer.
    replace (map (fun v => appendString v false) l) with (map quoted l);
      [reflexivity|].
    induction Hplain as [|v l Hv Hl IH]; simpl; [reflexivity|].
    now rewrite IH, (appendString_plain v Hv).
  - split; [|reflexivity].
    simpl. unfold plainByte, byte_quote, byte_bslash.
    repeat split; try discriminate; vm_compute; congruence.
  - intros options buf Hfmt Hmode.
    unfold Main.output, Main.encodeValues. rewrite Hfmt, Hmode. reflexivity.
  - reflexivity.
Qed.

Lemma C7_json_list_array_and_newline_witness :
  Main.output (Main.mkOptions "json" "list" EmptyString) (mkBuffer EmptyString)
    (Some ["a<b"; "x&y"])
  = (mkBuffer (arrayOf [quoted "a<b"; quoted "x&y"] ++ str1 byte_nl), None)
  /\ Main.output (Main.mkOptions "json" "list" EmptyString)
       (mkLimited 3 EmptyString) (Some ["item1"])
     = (mkLimited 3 EmptyString,
        Some (Wrap (SinkError "short write") "error writing JSON")).
Proof.
  destruct C7_json_list_array_and_newline as (Hgen & Hbuf & _).
  split.
  - apply (Hbuf (Main.mkOptions "json" "list" EmptyString)
             (mkBuffer EmptyString) ["a<b"; "x&y"]);
      try reflexivity.
    repeat constructor; try discriminate; vm_compute; congruence.
  - rewrite (Hgen Limited _ (Main.mkOptions "json" "list" EmptyString)
               (mkLimited 3 EmptyString) ["item1"] eq_refl eq_refl).
    reflexivity.
Defined.

(** C8: in plain format, once the check of single mode has let the call
    through, the formatter makes one write per value, in order, of the
    value's own bytes followed by a newline, up to the first write that
    fails; a sink that accepts everything receives exactly those lines.
    For the one record [k=] and the key [k] in single mode the lookup
    returns the empty string and the output is one empty line. *)
Theorem C8_plain_one_line_per_value :
  (forall (W : Type) (writer : Writer W) options (sink : W) (values : slice),
     Main.outputFormat options = "plain" ->
     (Main.valueType options = "single" -> len values = 1) ->
     Main.output options sink values = writeEach sink (map line (elems values)))
  /\
  (forall options (buf : Buffer) (values : slice),
     Main.outputFormat options = "plain" ->
     (Main.valueType options = "single" -> len values = 1) ->
     Main.output options buf values
     = (mkBuffer (bytes buf ++ unlines (elems values)), None))
  /\
  (let options := Main.mkOptions "plain" "single" EmptyString in
   Main.lookUpValues options ["k="] "k" (Some []) = (Some [EmptyString], None)
   /\ Main.output options (mkBuffer EmptyString) (Some [EmptyString])
      = (mkBuffer (str1 byte_nl), None)).
Proof.
  assert (Hgen : forall (W : Type) (writer : Writer W) options (sink : W) values,
     Main.outputFormat options = "plain" ->
     (Main.valueType options = "single" -> len values = 1) ->
     Main.output options sink values = writeEach sink (map line (elems values))).
  { intros W writer options sink values Hfmt Hpass.
    unfold Main.output. rewrite (precheck_passes _ _ Hpass), Hfmt. simpl.
    apply printRecords_writeEach. }
  split; [exact Hgen|]. split.
  - intros options buf values Hfmt Hpass.
    rewrite (Hgen _ _ options buf values Hfmt Hpass).
    apply writeEach_lines_Buffer.
  - split; reflexivity.
Qed.

Lemma C8_plain_one_line_per_value_witness :
  Main.output (Main.mkOptions "plain" "list" EmptyString) (mkBuffer EmptyString)
    (Some ["item1"; "it=em,2"])
  = (mkBuffer (line "item1" ++ line "it=em,2"), None)
  /\ Main.output (Main.mkOptions "plain" "single" EmptyString)
       (mkBuffer EmptyString) (Some ["value"])
     = (mkBuffer (line "value"), None).
Proof.
  destruct C8_plain_one_line_per_value as (_ & Hbuf & _).
  split.
  - apply (Hbuf (Main.mkOptions "plain" "list" EmptyString)
             (mkBuffer EmptyString) (Some ["item1"; "it=em,2"]));
      [reflexivity | discriminate].
  - apply (Hbuf (Main.mkOptions "plain" "single" EmptyString)
             (mkBuffer EmptyString) (Some ["value"]));
      [reflexivity | reflexivity].
Defined.

(** C9: the two variants have the same core.  For every options value of
    [main.go], read as options of the single-file variant by leaving the
    name server out (and every options value of that variant is read so),
    the two [lookUpValues] return the same values and the same error, and
    the two [output] leave every sink in the same state with the same
    error. *)
Theorem C9_variants_agree :
  (forall o records key defaults,
     Main.lookUpValues o records key defaults
     = Single.lookUpValues (forget o) records key defaults)
  /\
  (forall (W : Type) (writer : Writer W) o (sink : W) (values : slice),
     Main.output o sink values = Single.output (forget o) sink values)
  /\
  (forall so : Single.options, exists o, forget o = so).
Proof.
  split; [|split].
  - apply lookUpValues_forget.
  - intros W writer o sink values. apply output_forget.
  - intros [fmt mode]. now exists (Main.mkOptions fmt mode EmptyString).
Qed.

(** C10: when the check of single mode lets the call through and the
    format is neither [plain] nor [json], the formatter returns success
    and the sink as it was given, for every kind of sink; [zero], which
    the command line of [main.go] accepts, is such a format. *)
Theorem C10_other_format_writes_nothing :
  forall (W : Type) (writer : Writer W) options (sink : W) (values : slice),
    (Main.valueType options = "single" -> len values = 1) ->
    Main.outputFormat options <> "plain" ->
    Main.outputFormat options <> "json" ->
    Main.output options sink values = (sink, None)
    /\ In "zero" Main.formatEnum.
Proof.
  intros W writer options sink values Hpass Hplain Hjson.
  split; [|simpl; tauto].
  unfold Main.output. rewrite (precheck_passes _ _ Hpass).
  apply String.eqb_neq in Hplain, Hjson. now rewrite Hplain, Hjson.
Qed.

Lemma C10_other_format_writes_nothing_witness :
  Main.output (Main.mkOptions "zero" "single" EmptyString)
    (mkBuffer "kept") (Some ["value"])
  = (mkBuffer "kept", None).
Proof.
  apply (C10_other_format_writes_nothing Buffer _
           (Main.mkOptions "zero" "single" EmptyString)
           (mkBuffer "kept") (Some ["value"]));
    [reflexivity | discriminate | discriminate].
Defined.

End OutputProperties.

(** ** The scenarios of the README, end to end *)

Section Scenarios.
Import Go Spec.

Example scenario_key_plain :
  lookUpAndPrint Main.makeDefaultOptions readmeRecords "key" (Some [])
  = (line "value", None).
Proof. reflexivity. Qed.

Example scenario_default_plain :
  lookUpAndPrint Main.makeDefaultOptions [] "theanswer" (Some ["42"])
  = (line "42", None).
Proof. reflexivity. Qed.

Example scenario_things_list_plain :
  lookUpAndPrint (Main.mkOptions "plain" "list" EmptyString)
    readmeRecords "things" (Some [])
  = (line "item1" ++ line "item2", None).
Proof. reflexivity. Qed.

Example scenario_key_json :
  lookUpAndPrint (Main.mkOptions "json" "single" EmptyString)
    readmeRecords "key" (Some [])
  = (line (quoted "value"), None).
Proof. reflexivity. Qed.

Example scenario_two_values_single :
  lookUpAndPrint Main.makeDefaultOptions ["k=1"; "k=2"] "k" (Some [])
  = (EmptyString, Some (TooManyValues 2 "k"))
  /\ Error (TooManyValues 2 "k")
     = "2 values found for key k, but only 1 was expected".
Proof. split; reflexivity. Qed.

Example scenario_invalid_utf8_json :
  lookUpAndPrint (Main.mkOptions "json" "single" EmptyString)
    [] "k" (Some [String "255"%char "x"])
  = (line (quoted (runeErrorBytes ++ "x")), None).
Proof. reflexivity. Qed.

Example scenario_no_match_list_json :
  lookUpAndPrint (Main.mkOptions "json" "list" EmptyString)
    readmeRecords "nothing" (Some [])
  = (line "[]", None).
Proof. reflexivity. Qed.

End Scenarios.

(** ** Further properties of the lookup *)

Section MoreLookup.
Import Go GoLib Spec Notions.

Lemma matchingValues_app (records1 records2 : list string) (key : string) :
  matchingValues (records1 ++ records2) key
  = (matchingValues records1 key ++ matchingValues records2 key)%list.
Proof. unfold matchingValues. apply flat_map_app. Qed.

(** The lookup depends on the records through the matching values only. *)
Lemma lookUpValues_by_matching (options : Main.options)
    (records1 records2 : list string) (key : string) (defaults : slice) :
  matchingValues records1 key = matchingValues records2 key ->
  Main.lookUpValues options records1 key defaults
  = Main.lookUpValues options records2 key defaults.
Proof.
  intros Heq. unfold Main.lookUpValues.
  now rewrite !collect_matchingValues, Heq.
Qed.

Lemma matchOf_relevant (key record : string) :
  relevant key record = false -> matchOf key record = [].
Proof.
  unfold relevant, matchOf.
  destruct (parse record) as [[k v]|]; [|reflexivity].
  now intros ->.
Qed.

Lemma matchingValues_filter (records : list string) (key : string) :
  matchingValues (filter (relevant key) records) key
  = matchingValues records key.
Proof.
  unfold matchingValues.
  induction records as [|record records IH]; simpl; [reflexivity|].
  destruct (relevant key record) eqn:E; simpl.
  - now rewrite IH.
  - now rewrite (matchOf_relevant _ _ E), IH.
Qed.

(** The piece before the first separator holds no separator. *)
Lemma IndexByte_slice_to (s : string) (c : ascii) (m : nat) :
  IndexByte s c = Some m -> IndexByte (slice_to s m) c = None.
Proof.
  revert m. induction s as [|b s IH]; intros m; simpl; [discriminate|].
  destruct (Ascii.eqb b c) eqn:E.
  - intros [= <-]. reflexivity.
  - destruct (IndexByte s c) as [m'|] eqn:Em; [|discriminate].
    intros [= <-]. rewrite slice_to_S. simpl. rewrite E.
    now rewrite (IH m' eq_refl).
Qed.

Lemma parse_key_noByte (record k v : string) :
  parse record = Some (k, v) -> IndexByte k byte_eq = None.
Proof.
  unfold parse. destruct (IndexByte record byte_eq) as [i|] eqn:E; [|discriminate].
  intros [= <- _]. now apply IndexByte_slice_to.
Qed.

Lemma parse_recordOf (k v : string) :
  IndexByte k byte_eq = None -> parse (recordOf (k, v)) = Some (k, v).
Proof.
  intros Hk. pose proof (SplitN_2_app k v Hk) as Hsplit.
  rewrite SplitN_2 in Hsplit. unfold parse, recordOf. simpl.
  destruct (IndexByte (k ++ String byte_eq v) byte_eq) as [i|].
  - now injection Hsplit as -> ->.
  - discriminate.
Qed.

(** X1: looking a key up in two record lists put one after the other
    finds the values of the first list followed by those of the second:
    in list mode without defaults the result of the whole is the
    concatenation of the results of the parts. *)
Theorem lookup_of_appended_records :
  forall options records1 records2 key,
    Main.valueType options = "list" ->
    elems (fst (Main.lookUpValues options (records1 ++ records2) key (Some [])))
    = (elems (fst (Main.lookUpValues options records1 key (Some [])))
       ++ elems (fst (Main.lookUpValues options records2 key (Some []))))%list
    /\ snd (Main.lookUpValues options (records1 ++ records2) key (Some [])) = None.
Proof.
  intros options records1 records2 key Hmode.
  assert (Hlist : forall records,
    Main.lookUpValues options records key (Some [])
    = (Main.orDefault (Main.collect records key) (Some []), None)).
  { intros records. unfold Main.lookUpValues, Main.checked. now rewrite Hmode. }
  assert (Helems : forall records,
    elems (Main.orDefault (Main.collect records key) (Some []))
    = matchingValues records key).
  { intros records. rewrite collect_matchingValues.
    now destruct (matchingValues records key). }
  rewrite !Hlist. simpl. rewrite !Helems. split; [|reflexivity].
  apply matchingValues_app.
Qed.

Lemma lookup_of_appended_records_witness :
  elems (fst (Main.lookUpValues (Main.mkOptions "plain" "list" EmptyString)
                (["a=1"; "b=2"] ++ ["c=3"; "a=4"]) "a" (Some [])))
  = ["1"; "4"].
Proof.
  destruct (lookup_of_appended_records (Main.mkOptions "plain" "list" EmptyString)
              ["a=1"; "b=2"] ["c=3"; "a=4"] "a" eq_refl) as [Hval _].
  rewrite Hval. reflexivity.
Defined.

(** X2: only the records whose key is the requested one matter: dropping
    every other record (those without an equals sign and those with
    another key) changes neither the values nor the error of the lookup,
    in any mode and with any defaults. *)
Theorem lookup_ignores_other_records :
  forall options records key defaults,
    Main.lookUpValues options (filter (relevant key) records) key defaults
    = Main.lookUpValues options records key defaults.
Proof.
  intros options records key defaults.
  apply lookUpValues_by_matching, matchingValues_filter.
Qed.

(** X3: a requested key that holds an equals sign matches no record at
    all, since the key of a record ends before its first equals sign: the
    lookup behaves as if there were no records. *)
Theorem lookup_key_with_equals_never_matches :
  forall options records key defaults i,
    get i key = Some byte_eq ->
    Main.collect records key = None
    /\ Main.lookUpValues options records key defaults
       = Main.lookUpValues options [] key defaults.
Proof.
  intros options records key defaults i Hget.
  assert (Hnone : matchingValues records key = []).
  { unfold matchingValues. induction records as [|record records IH];
      simpl; [reflexivity|].
    rewrite IH, app_nil_r. unfold matchOf.
    destruct (parse record) as [[k v]|] eqn:Ep; [|reflexivity].
    destruct (k =? key) eqn:Ek; [|reflexivity].
    apply String.eqb_eq in Ek. subst k.
    apply parse_key_noByte, IndexByte_None in Ep.
    now specialize (Ep i). }
  split.
  - now rewrite collect_matchingValues, Hnone.
  - apply lookUpValues_by_matching. now rewrite Hnone.
Qed.

Lemma lookup_key_with_equals_never_matches_witness :
  Main.lookUpValues (Main.mkOptions "plain" "single" EmptyString)
    ["a=b=c"; "a=b"] "a=b" (Some [])
  = (None, Some (NoValue "a=b")).
Proof.
  destruct (lookup_key_with_equals_never_matches
              (Main.mkOptions "plain" "single" EmptyString)
              ["a=b=c"; "a=b"] "a=b" (Some []) 1 eq_refl) as [_ Hlook].
  rewrite Hlook. reflexivity.
Defined.

(** X4: storing pairs as records and looking a key up gives the pairs'
    values back: when no key of the pairs holds an equals sign, the
    accumulator for a key is exactly the values of the pairs with that
    key, in order, whatever bytes the values hold. *)
Theorem lookup_of_stored_pairs :
  forall pairs key,
    (forall k v, In (k, v) pairs -> IndexByte k byte_eq = None) ->
    elems (Main.collect (map recordOf pairs) key) = valuesOf key pairs.
Proof.
  intros pairs key Hkeys. rewrite collect_elems.
  unfold matchingValues, valuesOf.
  induction pairs as [|[k v] pairs IH]; simpl; [reflexivity|].
  unfold matchOf at 1.
  rewrite (parse_recordOf k v) by (apply (Hkeys k v); now left).
  rewrite IH by (intros k' v' Hin; apply (Hkeys k' v'); now right).
  now destruct (k =? key).
Qed.

Lemma lookup_of_stored_pairs_witness :
  elems (Main.collect
           (map recordOf [("k", "a=b"); ("other", "x"); ("k", EmptyString)]) "k")
  = ["a=b"; EmptyString].
Proof.
  apply (lookup_of_stored_pairs
           [("k", "a=b"); ("other", "x"); ("k", EmptyString)] "k").
  intros k v [[= <- <-]|[[= <- <-]|[[= <- <-]|[]]]]; reflexivity.
Defined.

End MoreLookup.

(** ** Further properties of the formatter *)

Section MoreOutput.
Import Go GoLib Spec Notions.

(** A lookup that succeeds in single mode returns one value. *)
Lemma lookUpValues_single_len (options : Main.options) (records : list string)
    (key : string) (defaults values : slice) :
  Main.lookUpValues options records key defaults = (values, None) ->
  Main.valueType options = "single" -> len values = 1.
Proof.
  unfold Main.lookUpValues, Main.checked. intros Hres Hmode.
  rewrite Hmode in Hres. simpl in Hres.
  destruct (len (Main.orDefault (Main.collect records key) defaults))
    as [|[|n]] eqn:E; simpl in Hres; try discriminate.
  injection Hres as <-. exact E.
Qed.

(** A buffer takes every write, so the formatter succeeds on it whenever
    its own check lets the call through. *)
Lemma output_Buffer_succeeds (options : Main.options) (buf : Buffer) (values : slice) :
  (Main.valueType options = "single" -> len values = 1) ->
  snd (Main.output options buf values) = None.
Proof.
  intros Hpass. unfold Main.output. rewrite (precheck_passes _ _ Hpass).
  destruct (Main.outputFormat options =? "json").
  - unfold Main.encodeValues.
    destruct (Main.valueType options =? "single"); [reflexivity|].
    destruct (Main.valueType options =? "list"); reflexivity.
  - destruct (Main.outputFormat options =? "plain"); [|reflexivity].
    now rewrite printRecords_writeEach, writeEach_lines_Buffer.
Qed.

Lemma writeEach_app {W} `{Writer W} (sink : W) (chunks1 chunks2 : list string) :
  writeEach sink (chunks1 ++ chunks2)
  = match writeEach sink chunks1 with
    | (sink1, None) => writeEach sink1 chunks2
    | failed => failed
    end.
Proof.
  revert sink. induction chunks1 as [|p chunks1 IH]; intros sink; simpl.
  - reflexivity.
  - destruct (Write sink p) as [sink' [err|]]; [reflexivity | apply IH].
Qed.

(** X5: the check at the head of the formatter never fires on what a
    successful lookup returned with the same options (one value in single
    mode), so printing it to a sink that takes every write succeeds. *)
Theorem lookup_then_output_succeeds :
  forall options records key defaults values (buf : Buffer),
    Main.lookUpValues options records key defaults = (values, None) ->
    (Main.valueType options = "single" -> len values = 1)
    /\ snd (Main.output options buf values) = None.
Proof.
  intros options records key defaults values buf Hres.
  assert (Hpass : Main.valueType options = "single" -> len values = 1)
    by (apply (lookUpValues_single_len _ _ _ _ _ Hres)).
  split; [exact Hpass | now apply output_Buffer_succeeds].
Qed.

Lemma lookup_then_output_succeeds_witness :
  snd (Main.output (Main.mkOptions "json" "single" EmptyString)
         (mkBuffer EmptyString) (Some ["value"])) = None.
Proof.
  apply (lookup_then_output_succeeds (Main.mkOptions "json" "single" EmptyString)
           readmeRecords "key" (Some []) (Some ["value"]) (mkBuffer EmptyString)).
  reflexivity.
Defined.

(** X6: in json format and single mode the formatter makes one write, of
    the JSON string literal of the value (HTML escaping off) and a
    newline; an error of the sink comes back wrapped.  A value of plain
    bytes reaches a buffer between double quotes, as it is. *)
Theorem json_single_writes_one_literal :
  forall (W : Type) (writer : Writer W) options (sink : W) (v : string),
    Main.outputFormat options = "json" ->
    Main.valueType options = "single" ->
    Main.output options sink (Some [v])
    = match Write sink (appendString v false ++ str1 byte_nl) with
      | (sink', Some err) => (sink', Some (Wrap err "error writing JSON"))
      | (sink', None) => (sink', None)
      end
    /\ (plainBytes v ->
        forall buf : Buffer,
          Main.output options buf (Some [v])
          = (mkBuffer (bytes buf ++ quoted v ++ str1 byte_nl), None)).
Proof.
  intros W writer options sink v Hfmt Hmode.
  assert (Hgen : forall (W' : Type) (writer' : Writer W') (sink' : W'),
    Main.output options sink' (Some [v])
    = match Write sink' (appendString v false ++ str1 byte_nl) with
      | (sink'', Some err) => (sink'', Some (Wrap err "error writing JSON"))
      | (sink'', None) => (sink'', None)
      end).
  { intros W' writer' sink'.
    unfold Main.output, Main.encodeValues. rewrite Hfmt, Hmode. simpl.
    unfold Encode. simpl.
    now destruct (Write sink' _) as [sink'' [err|]]. }
  split; [apply Hgen|].
  intros Hplain buf. rewrite Hgen, (appendString_plain v Hplain). reflexivity.
Qed.

Lemma json_single_writes_one_literal_witness :
  Main.output (Main.mkOptions "json" "single" EmptyString)
    (mkBuffer EmptyString) (Some ["a<b>&c"])
  = (mkBuffer (quoted "a<b>&c" ++ str1 byte_nl), None).
Proof.
  destruct (json_single_writes_one_literal Buffer _
              (Main.mkOptions "json" "single" EmptyString)
              (mkBuffer EmptyString) "a<b>&c" eq_refl eq_refl) as [_ Hbuf].
  apply Hbuf.
  repeat split; try discriminate; vm_compute; congruence.
Defined.

(** X7: in plain format the formatter stops at the first write that
    fails: the lines before it stay written, the error of the sink comes
    back as it is (not wrapped), and the values after it are never
    written, whatever they are. *)
Theorem plain_stops_at_first_failed_write :
  forall (W : Type) (writer : Writer W) options (sink sink1 sink2 : W)
         (before : list string) (v : string) (after : list string) (err : error),
    Main.outputFormat options = "plain" ->
    Main.valueType options <> "single" ->
    writeEach sink (map line before) = (sink1, None) ->
    Write sink1 (line v) = (sink2, Some err) ->
    Main.output options sink (Some (before ++ v :: after)%list)
    = (sink2, Some err).
Proof.
  intros W writer options sink sink1 sink2 before v after err
         Hfmt Hmode Hbefore Hfail.
  unfold Main.output. apply String.eqb_neq in Hmode. rewrite Hmode, Hfmt.
  simpl. rewrite printRecords_writeEach, map_app, writeEach_app, Hbefore.
  simpl. now rewrite Hfail.
Qed.

Lemma plain_stops_at_first_failed_write_witness :
  Main.output (Main.mkOptions "plain" "list" EmptyString)
    (mkLimited 8 EmptyString)
    (Some (["item1"] ++ "item2" :: ["item3"; "x"])%list)
  = (mkLimited 2 (line "item1"), Some (SinkError "short write")).
Proof.
  apply (plain_stops_at_first_failed_write Limited _
           (Main.mkOptions "plain" "list" EmptyString)
           (mkLimited 8 EmptyString) (mkLimited 2 (line "item1"))
           (mkLimited 2 (line "item1")) ["item1"] "item2" ["item3"; "x"]
           (SinkError "short write"));
    [reflexivity | discriminate | reflexivity | reflexivity].
Defined.

(** X8: the plain format does not tell a newline inside a value from the
    end of a value: in list mode a value with a newline in it and the two
    values on either side of that newline give the same output. *)
Theorem plain_newline_in_value_is_ambiguous :
  forall options (buf : Buffer) (a b : string) (rest : list string),
    Main.outputFormat options = "plain" ->
    Main.valueType options <> "single" ->
    Main.output options buf (Some ((a ++ String byte_nl b) :: rest))
    = Main.output options buf (Some (a :: b :: rest)).
Proof.
  intros options buf a b rest Hfmt Hmode.
  unfold Main.output. apply String.eqb_neq in Hmode. rewrite Hmode, Hfmt.
  simpl orb. cbn [andb elems].
  rewrite !printRecords_writeEach, !writeEach_lines_Buffer.
  simpl. unfold line. now rewrite !append_assoc.
Qed.

Lemma plain_newline_in_value_is_ambiguous_witness :
  Main.output (Main.mkOptions "plain" "list" EmptyString) (mkBuffer EmptyString)
    (Some ["one" ++ String byte_nl "two"])
  = Main.output (Main.mkOptions "plain" "list" EmptyString) (mkBuffer EmptyString)
      (Some ["one"; "two"]).
Proof.
  apply (plain_newline_in_value_is_ambiguous
           (Main.mkOptions "plain" "list" EmptyString) (mkBuffer EmptyString)
           "one" "two" []);
    [reflexivity | discriminate].
Defined.

End MoreOutput.

(** ** The JSON output is one line *)

Section JsonOneLine.
Import Go GoLib Spec Notions.

Lemma allBytes_app (P : ascii -> Prop) (a b : string) :
  allBytes P a -> allBytes P b -> allBytes P (a ++ b).
Proof.
  induction a as [|c a IH]; simpl; [tauto|].
  intros [Hc Ha] Hb. split; [exact Hc | now apply IH].
Qed.

Lemma byteN_bounded (c : ascii) : (byteN c < 256)%N.
Proof. apply N_ascii_bounded. Qed.

(** Each of the 256 bytes is escaped without a control character. *)
Lemma noControl_escapeByte (c : ascii) : noControl (escapeByte c).
Proof.
  destruct c as [[] [] [] [] [] [] [] []];
    vm_compute; repeat split; discriminate.
Qed.

Lemma noControl_hex_low (r : N) :
  (r = 0x2028 \/ r = 0x2029)%N ->
  noControl (String byte_bslash ("u202" ++ str1 (hex (N.land r 0xF)))).
Proof.
  intros [-> | ->]; vm_compute; repeat split; discriminate.
Qed.

Lemma first_lead_lo (b : N) (sz : nat) (lo hi : N) :
  first b = first_lead sz lo hi -> (0x80 <= lo)%N.
Proof.
  unfold first.
  repeat match goal with
         | |- context [if ?t then _ else _] => destruct t
         end;
    intros [= <- <- <-] || discriminate; lia.
Qed.

Lemma substring_0_0 (s : string) : substring 0 0 s = EmptyString.
Proof. now destruct s. Qed.

Ltac bytes_done :=
  cbn [snd substring allBytes]; rewrite ?substring_0_0;
  cbn [allBytes]; tauto.

(** The bytes of a rune that does not start with an ASCII byte are all
    from 0x80 on: the leading byte is, and the decoder has checked the
    others. *)
Lemma noControl_rune (c : ascii) (rest : string) :
  (0x80 <= byteN c)%N ->
  noControl (slice_to (String c rest)
               (snd (DecodeRuneInString (String c rest)))).
Proof.
  intros Hc.
  assert (H0 : (0x20 <= byteN c)%N) by lia.
  unfold DecodeRuneInString, noControl, slice_to.
  destruct (first (byteN c)) as [| |sz lo hi] eqn:Ef;
    [bytes_done
    | bytes_done |].
  apply first_lead_lo in Ef.
  destruct (String.length (String c rest) <? sz)%nat;
    [bytes_done|].
  destruct rest as [|c1 t1]; [bytes_done|].
  destruct ((byteN c1 <? lo) || (hi <? byteN c1))%N eqn:E1;
    [bytes_done|].
  apply orb_false_iff in E1. destruct E1 as [E1 _]. apply N.ltb_ge in E1.
  assert (H1 : (0x20 <= byteN c1)%N) by lia.
  destruct (sz <=? 2)%nat; [bytes_done|].
  destruct t1 as [|c2 t2]; [bytes_done|].
  destruct ((byteN c2 <? locb) || (hicb <? byteN c2))%N eqn:E2;
    [bytes_done|].
  apply orb_false_iff in E2. destruct E2 as [E2 _]. apply N.ltb_ge in E2.
  unfold locb in E2.
  assert (H2 : (0x20 <= byteN c2)%N) by lia.
  destruct (sz <=? 3)%nat; [bytes_done|].
  destruct t2 as [|c3 t3]; [bytes_done|].
  destruct ((byteN c3 <? locb) || (hicb <? byteN c3))%N eqn:E3;
    [bytes_done|].
  apply orb_false_iff in E3. destruct E3 as [E3 _]. apply N.ltb_ge in E3.
  unfold locb in E3.
  assert (H3 : (0x20 <= byteN c3)%N) by lia.
  bytes_done.
Qed.

(** What [appendString] puts between the quotes holds no control
    character, whatever the bytes of the source. *)
Lemma noControl_appendRunes (fuel : nat) (escapeHTML : bool) (src : string) :
  noControl (appendRunes fuel escapeHTML src).
Proof.
  revert src. induction fuel as [|fuel IH]; intros src; [exact I|].
  destruct src as [|c rest]; [exact I|].
  cbn [appendRunes].
  destruct (byteN c <? RuneSelf)%N eqn:Eself.
  - destruct (htmlSafeSet (byteN c) || negb escapeHTML && safeSet (byteN c))
      eqn:Esafe.
    + split; [|apply IH].
      apply orb_true_iff in Esafe. unfold htmlSafeSet, safeSet in Esafe.
      rewrite !andb_true_iff in Esafe.
      assert (Hle : (0x20 <=? byteN c)%N = true) by tauto.
      now apply N.leb_le in Hle.
    + apply allBytes_app; [apply noControl_escapeByte | apply IH].
  - apply N.ltb_ge in Eself. unfold RuneSelf in Eself.
    pose proof (noControl_rune c rest Eself) as Hrune.
    destruct (DecodeRuneInString (String c rest)) as [r size].
    simpl in Hrune.
    destruct ((r =? RuneError)%N && (size =? 1)%nat).
    + apply allBytes_app; [|apply IH].
      vm_compute; repeat split; discriminate.
    + destruct ((r =? 0x2028) || (r =? 0x2029))%N eqn:Esep.
      * apply allBytes_app; [|apply IH].
        apply noControl_hex_low.
        apply orb_true_iff in Esep. rewrite !N.eqb_eq in Esep. exact Esep.
      * apply allBytes_app; [exact Hrune | apply IH].
Qed.

Lemma noControl_appendString (src : string) (escapeHTML : bool) :
  noControl (appendString src escapeHTML).
Proof.
  unfold appendString. split; [vm_compute; discriminate|].
  apply allBytes_app; [apply noControl_appendRunes|].
  split; [vm_compute; discriminate | exact I].
Qed.

Lemma noControl_join (sep : string) (items : list string) :
  noControl sep -> Forall noControl items -> noControl (join sep items).
Proof.
  intros Hsep Hitems. induction Hitems as [|x items Hx Hrest IH]; [exact I|].
  destruct items as [|y items]; [exact Hx|].
  change (join sep (x :: y :: items)) with (x ++ sep ++ join sep (y :: items)).
  apply allBytes_app; [exact Hx|]. now apply allBytes_app.
Qed.

Lemma noControl_marshal (v : value) (escapeHTML : bool) :
  noControl (marshal v escapeHTML).
Proof.
  destruct v as [s|[l|]].
  - apply noControl_appendString.
  - unfold marshal, encodeArray.
    apply (allBytes_app _ "["); [split; [vm_compute; discriminate | exact I]|].
    apply allBytes_app; [|split; [vm_compute; discriminate | exact I]].
    apply noControl_join; [split; [vm_compute; discriminate | exact I]|].
    apply Forall_forall. intros x Hin. apply in_map_iff in Hin.
    destruct Hin as (s & <- & _). apply noControl_appendString.
  - vm_compute. repeat split; discriminate.
Qed.

(** X9: what the json format prints is one line, whatever bytes the
    values hold: in single and in list mode, when the check of single
    mode lets the call through, a buffer receives a body without any
    control character (a newline or a tab of a value is written as an
    escape) followed by one newline. *)
Theorem json_output_is_one_line :
  forall options (buf : Buffer) (values : slice),
    Main.outputFormat options = "json" ->
    Main.valueType options = "single" \/ Main.valueType options = "list" ->
    (Main.valueType options = "single" -> len values = 1) ->
    exists body,
      Main.output options buf values
      = (mkBuffer (bytes buf ++ body ++ str1 byte_nl), None)
      /\ noControl body.
Proof.
  intros options buf values Hfmt Hmode Hpass.
  unfold Main.output. rewrite (precheck_passes _ _ Hpass), Hfmt.
  unfold Main.encodeValues.
  destruct Hmode as [Hmode | Hmode]; rewrite Hmode.
  - exists (appendString (nth 0 (elems values) EmptyString) false).
    split; [reflexivity | apply noControl_appendString].
  - exists (marshal (OfStrings values) false).
    split; [reflexivity | apply noControl_marshal].
Qed.

Lemma json_output_is_one_line_witness :
  exists body,
    Main.output (Main.mkOptions "json" "list" EmptyString) (mkBuffer EmptyString)
      (Some ["two" ++ String byte_nl "lines"; String "009"%char "tab"])
    = (mkBuffer (EmptyString ++ body ++ str1 byte_nl), None)
    /\ noControl body.
Proof.
  apply (json_output_is_one_line (Main.mkOptions "json" "list" EmptyString)
           (mkBuffer EmptyString)
           (Some ["two" ++ String byte_nl "lines"; String "009"%char "tab"]));
    [reflexivity | right; reflexivity | discriminate].
Defined.

End JsonOneLine.

(** ** The provider of [main.go] *)

Section ProviderProperties.
Import Go GoLib Spec Notions Fixtures.

Lemma HasPrefix_slash (domain : string) :
  (if HasPrefix domain (str1 byte_slash) then slice_from domain 1 else domain)
  = stripSlash domain.
Proof.
  destruct domain as [|c rest]; [reflexivity|].
  unfold HasPrefix, stripSlash, str1. cbn [prefix].
  destruct (ascii_dec byte_slash c) as [<- | Hne].
  - rewrite Ascii.eqb_refl.
    replace (prefix EmptyString rest) with true by now destruct rest.
    now rewrite slice_from_S, slice_from_0.
  - destruct (Ascii.eqb c byte_slash) eqn:E; [|reflexivity].
    apply Ascii.eqb_eq in E. congruence.
Qed.

(** X10: a source is taken as a plain domain name, with no name server of
    its own, not only when it holds no colon but also when it parses as a
    URI whose scheme is not exactly [dns]: the whole source string, scheme
    and colon included, is then the domain handed to the provider. *)
Theorem source_without_dns_scheme_is_a_domain :
  forall (P : Type) (C : Main.Collaborators P) options source,
    ContainsRune source byte_colon = false
    \/ (exists u, Main.parseURI source = inl u /\ Main.scheme u <> "dns") ->
    Main.getTxtProvider options source
    = Main.makeDnsProvider options EmptyString source.
Proof.
  intros P C options source [Hplain | (u & Hparse & Hscheme)];
    unfold Main.getTxtProvider.
  - now rewrite Hplain.
  - destruct (ContainsRune source byte_colon); [|reflexivity].
    rewrite Hparse. apply String.eqb_neq in Hscheme. now rewrite Hscheme.
Qed.

Lemma source_without_dns_scheme_is_a_domain_witness :
  Main.getTxtProvider (Main.mkOptions "plain" "single" EmptyString)
    "https://foo.example.com"
  = inl (EmptyString, "https://foo.example.com").
Proof.
  apply (source_without_dns_scheme_is_a_domain (string * string)%type readme
           (Main.mkOptions "plain" "single" EmptyString)
           "https://foo.example.com").
  right. eexists. split; [reflexivity | discriminate].
Defined.

(** X11: for a source that parses as a [dns] URI, a query is refused
    first, then a fragment, each with an error that quotes it; otherwise
    the provider is made for the authority as name server and for the
    path without one leading slash (one only) as domain. *)
Theorem dns_uri_provider :
  forall (P : Type) (C : Main.Collaborators P) options source u,
    ContainsRune source byte_colon = true ->
    Main.parseURI source = inl u ->
    Main.scheme u = "dns" ->
    (Main.query u <> EmptyString ->
       Main.getTxtProvider options source = inr (UnexpectedQuery (Main.query u)))
    /\ (Main.query u = EmptyString -> Main.fragment u <> EmptyString ->
          Main.getTxtProvider options source
          = inr (UnexpectedFragment (Main.fragment u)))
    /\ (Main.query u = EmptyString -> Main.fragment u = EmptyString ->
          Main.getTxtProvider options source
          = Main.makeDnsProvider options (Main.authority u)
              (stripSlash (Main.path u))).
Proof.
  intros P C options source u Hcolon Hparse Hscheme.
  unfold Main.getTxtProvider. rewrite Hcolon, Hparse, Hscheme.
  rewrite HasPrefix_slash. cbn [String.eqb Ascii.eqb Bool.eqb].
  repeat split.
  - intros Hq. apply String.eqb_neq in Hq. now rewrite Hq.
  - intros -> Hf. apply String.eqb_neq in Hf. now rewrite Hf.
  - now intros -> ->.
Qed.

Lemma dns_uri_provider_witness :
  Main.getTxtProvider (Main.mkOptions "plain" "single" EmptyString)
    "dns://192.0.2.53/foo.example.com"
  = inl ("192.0.2.53", "foo.example.com")
  /\ Main.getTxtProvider (Main.mkOptions "plain" "single" EmptyString)
       "dns:foo.example.com?type=TXT"
     = inr (UnexpectedQuery "type=TXT")
  /\ Main.getTxtProvider (Main.mkOptions "plain" "single" EmptyString)
       "dns:foo.example.com#top"
     = inr (UnexpectedFragment "top").
Proof.
  split; [|split].
  - destruct (dns_uri_provider (string * string)%type readme
                (Main.mkOptions "plain" "single" EmptyString)
                "dns://192.0.2.53/foo.example.com"
                (Main.mkUri "dns" "192.0.2.53" "/foo.example.com"
                   EmptyString EmptyString)
                eq_refl eq_refl eq_refl) as (_ & _ & Hok).
    apply Hok; reflexivity.
  - destruct (dns_uri_provider (string * string)%type readme
                (Main.mkOptions "plain" "single" EmptyString)
                "dns:foo.example.com?type=TXT"
                (Main.mkUri "dns" EmptyString "foo.example.com"
                   "type=TXT" EmptyString)
                eq_refl eq_refl eq_refl) as (Hq & _).
    apply Hq. discriminate.
  - destruct (dns_uri_provider (string * string)%type readme
                (Main.mkOptions "plain" "single" EmptyString)
                "dns:foo.example.com#top"
                (Main.mkUri "dns" EmptyString "foo.example.com"
                   EmptyString "top")
                eq_refl eq_refl eq_refl) as (_ & Hf & _).
    apply Hf; [reflexivity | discriminate].
Defined.

End ProviderProperties.

(** ** The entry point of [main.go] *)

Section MainProperties.
Import Go GoLib Spec Notions Fixtures.

(** Replacing a nil default set by an empty one keeps its length. *)
Lemma len_or_empty (defaults : slice) :
  len (match defaults with None => Some [] | Some _ => defaults end)
  = len defaults.
Proof. now destruct defaults. Qed.

(** A formatter that fails after its own check has passed reports a
    write the sink refused. *)
Lemma writeEach_failure {W} `{Writer W} (sink out : W) (chunks : list string)
    (err : error) :
  writeEach sink chunks = (out, Some err) ->
  exists sink0 chunk, Write sink0 chunk = (out, Some err).
Proof.
  revert sink. induction chunks as [|p chunks IH]; intros sink; simpl.
  - discriminate.
  - destruct (Write sink p) as [sink' [e|]] eqn:Ew.
    + intros [= <- <-]. now exists sink, p.
    + apply IH.
Qed.

Lemma output_failure_is_sink_failure {W} `{Writer W} (options : Main.options)
    (sink out : W) (values : slice) (err : error) :
  (Main.valueType options = "single" -> len values = 1) ->
  Main.output options sink values = (out, Some err) ->
  exists sink0 chunk e, Write sink0 chunk = (out, Some e).
Proof.
  intros Hpass. unfold Main.output. rewrite (precheck_passes _ _ Hpass).
  destruct (Main.outputFormat options =? "json").
  - unfold Main.encodeValues, Encode, NewEncoder, SetEscapeHTML. cbn [enc_err enc_w enc_escapeHTML].
    destruct (Main.valueType options =? "single").
    + destruct (Write sink _) as [sink' [e|]] eqn:Ew; [|discriminate].
      cbn [enc_w]. intros [= <- _]. do 3 eexists. exact Ew.
    + destruct (Main.valueType options =? "list"); [|discriminate].
      destruct (Write sink _) as [sink' [e|]] eqn:Ew; [|discriminate].
      cbn [enc_w]. intros [= <- _]. do 3 eexists. exact Ew.
  - destruct (Main.outputFormat options =? "plain"); [|discriminate].
    rewrite printRecords_writeEach. intros Hfail.
    destruct (writeEach_failure _ _ _ _ Hfail) as (sink0 & chunk & Hw).
    now exists sink0, chunk, err.
Qed.

(** X12: in single mode with more than one default, both entry points
    stop with status 1 before anything else: no provider is made, no
    query sent, nothing printed to standard output; the message shows the
    count through the unknown verb [%n].  The check is the caller's own:
    on records with exactly one match the lookup itself would succeed
    with those defaults. *)
Theorem too_many_defaults_exit_first :
  forall options key defaults,
    Main.valueType options = "single" ->
    1 < len defaults ->
    (forall (P : Type) (C : Main.Collaborators P) (W : Type) (writer : Writer W)
            source (stdout : W),
       @Main.main P C W writer options source key defaults stdout
       = Exit 1 stdout
           ("Got %!n(int=" ++ fmt_d (len defaults)
              ++ ") default values, but the value type is " ++ inQuotes "single"
              ++ ".  (Did you mean to set --type list?)" ++ str1 byte_nl))
    /\
    (forall (lib : DnsLibrary) (W : Type) (writer : Writer W) domain (stdout : W),
       @Single.main lib W writer (forget options) domain key defaults stdout
       = Exit 1 stdout
           ("Got %!n(int=" ++ fmt_d (len defaults)
              ++ ") default values, but the value type is " ++ inQuotes "single"
              ++ ".  (Did you mean to set --type list?)"))
    /\
    (forall records v,
       matchingValues records key = [v] ->
       Main.lookUpValues options records key defaults = (Some [v], None)).
Proof.
  intros options key defaults Hmode Hlen.
  assert (Hcheck :
    (1 <? len (match defaults with None => Some [] | Some _ => defaults end))%nat
    = true).
  { rewrite len_or_empty. now apply Nat.ltb_lt. }
  split; [|split].
  - intros P C W writer source stdout. unfold Main.main.
    rewrite Hmode, Hcheck, len_or_empty. unfold fmt_bad_n.
    simpl. now rewrite !append_assoc.
  - intros lib W writer domain stdout. unfold Single.main, forget.
    cbn [Single.valueType]. rewrite Hmode, Hcheck, len_or_empty.
    unfold fmt_bad_n. simpl. now rewrite !append_assoc.
  - intros records v Hm. unfold Main.lookUpValues, Main.checked.
    rewrite collect_matchingValues, Hm, Hmode. reflexivity.
Qed.

Lemma too_many_defaults_exit_first_witness :
  Main.main (Main.mkOptions "plain" "single" EmptyString)
    "foo.example.com" "key" (Some ["a"; "b"]) (mkBuffer EmptyString)
  = Exit 1 (mkBuffer EmptyString)
      ("Got %!n(int=2) default values, but the value type is "
         ++ inQuotes "single" ++ ".  (Did you mean to set --type list?)"
         ++ str1 byte_nl)
  /\ Main.lookUpValues (Main.mkOptions "plain" "single" EmptyString)
       readmeRecords "key" (Some ["a"; "b"])
     = (Some ["value"], None).
Proof.
  destruct (too_many_defaults_exit_first
              (Main.mkOptions "plain" "single" EmptyString) "key"
              (Some ["a"; "b"]) eq_refl) as (Hmain & _ & Hcore).
  - vm_compute. lia.
  - split.
    + apply (Hmain (string * string)%type readme Buffer _).
    + apply Hcore. reflexivity.
Defined.

(** X13: [main.go] prints to standard output only once the lookup has
    succeeded: it always ends by an exit with a status from 0 to 5, the
    status is 0 exactly when nothing was printed to standard error, and
    for the statuses 1 to 4 standard output is as it was. *)
Theorem main_prints_only_after_lookup :
  forall (P : Type) (C : Main.Collaborators P) (W : Type) (writer : Writer W)
         options source key defaults (stdout : W),
    match @Main.main P C W writer options source key defaults stdout with
    | Exit status out err =>
        status <= 5
        /\ (status = 0 <-> err = EmptyString)
        /\ (status <> 0 -> status <> 5 -> out = stdout)
    | Crash _ => False
    end.
Proof.
  intros P C W writer options source key defaults stdout.
  unfold Main.main.
  destruct ((Main.valueType options =? "single") && _).
  { repeat split; try lia; discriminate. }
  destruct (Main.getTxtProvider options source) as [provider|e].
  2: { repeat split; try lia; discriminate. }
  destruct (Main.getTxtRecords provider) as [records|e].
  2: { repeat split; try lia; discriminate. }
  destruct (Main.lookUpValues options records key _) as [values [e|]].
  { repeat split; try lia; discriminate. }
  destruct (Main.output options stdout values) as [out [e|]].
  - repeat split; try lia; discriminate.
  - repeat split; try lia; congruence.
Qed.




(** X15: through [main.go] the json format in list mode always prints an
    array, never [null]: a missing default set is replaced by an empty
    one before the lookup, so when the run ends with status 0 on a
    buffer, the buffer has received a JSON array and a newline. *)
Theorem main_json_list_prints_an_array :
  forall (P : Type) (C : Main.Collaborators P)
         options source key defaults (stdout out : Buffer) err,
    Main.outputFormat options = "json" ->
    Main.valueType options = "list" ->
    @Main.main P C Buffer _ options source key defaults stdout = Exit 0 out err ->
    exists items,
      bytes out = bytes stdout ++ encodeArray items false ++ str1 byte_nl.
Proof.
  intros P C options source key defaults stdout out err Hfmt Hmode.
  unfold Main.main. rewrite Hmode. cbn [String.eqb Ascii.eqb Bool.eqb andb].
  destruct (Main.getTxtProvider options source) as [provider|e];
    [|discriminate].
  destruct (Main.getTxtRecords provider) as [records|e]; [|discriminate].
  unfold Main.lookUpValues, Main.checked. rewrite Hmode.
  cbn [String.eqb Ascii.eqb Bool.eqb].
  assert (Hsome : exists items,
    Main.orDefault (Main.collect records key)
      (match defaults with None => Some [] | Some _ => defaults end)
    = Some items).
  { rewrite collect_matchingValues.
    destruct (matchingValues records key) as [|v l].
    - destruct defaults as [l|]; [now exists l | now exists []].
    - now exists (v :: l). }
  destruct Hsome as [items ->].
  unfold Main.output, Main.encodeValues. rewrite Hfmt, Hmode.
  cbn. intros [= <- _]. now exists items.
Qed.

Lemma main_json_list_prints_an_array_witness :
  exists items,
    bytes (mkBuffer ("[]" ++ str1 byte_nl))
    = bytes (mkBuffer EmptyString) ++ encodeArray items false ++ str1 byte_nl.
Proof.
  apply (main_json_list_prints_an_array (string * string)%type readme
           (Main.mkOptions "json" "list" EmptyString)
           "foo.example.com" "nothing" None (mkBuffer EmptyString)
           (mkBuffer ("[]" ++ str1 byte_nl)) EmptyString);
    reflexivity.
Defined.

(** X16: with the format [zero] a run of [main.go] never touches
    standard output and never fails at the output stage: it ends with a
    status from 0 to 4 and standard output as it was, so the status alone
    tells whether the lookup succeeded. *)
Theorem zero_format_prints_nothing :
  forall (P : Type) (C : Main.Collaborators P) (W : Type) (writer : Writer W)
         options source key defaults (stdout : W),
    Main.outputFormat options = "zero" ->
    exists status err,
      @Main.main P C W writer options source key defaults stdout
      = Exit status stdout err
      /\ status <= 4.
Proof.
  intros P C W writer options source key defaults stdout Hfmt.
  unfold Main.main.
  destruct ((Main.valueType options =? "single") && _).
  { eexists _, _. split; [reflexivity | lia]. }
  destruct (Main.getTxtProvider options source) as [provider|e].
  2: { eexists _, _. split; [reflexivity | lia]. }
  destruct (Main.getTxtRecords provider) as [records|e].
  2: { eexists _, _. split; [reflexivity | lia]. }
  destruct (Main.lookUpValues options records key _) as [values [e|]] eqn:El.
  { eexists _, _. split; [reflexivity | lia]. }
  assert (Hout : Main.output options stdout values = (stdout, None)).
  { unfold Main.output.
    rewrite (precheck_passes _ _ (lookUpValues_single_len _ _ _ _ _ El)), Hfmt.
    reflexivity. }
  rewrite Hout. eexists _, _. split; [reflexivity | lia].
Qed.

Lemma zero_format_prints_nothing_witness :
  exists status err,
    Main.main (Main.mkOptions "zero" "single" EmptyString)
      "foo.example.com" "key" None (mkBuffer "kept")
    = Exit status (mkBuffer "kept") err
    /\ status <= 4.
Proof.
  apply (zero_format_prints_nothing (string * string)%type readme Buffer _
           (Main.mkOptions "zero" "single" EmptyString)
           "foo.example.com" "key" None (mkBuffer "kept")).
  reflexivity.
Defined.

End MainProperties.

(** ** The DNS query and the entry point of the single-file variant *)

Section SingleProperties.
Import Go GoLib Spec Notions Fixtures.

Lemma length_append (a b : string) :
  String.length (a ++ b) = String.length a + String.length b.
Proof. induction a as [|c a IH]; simpl; [reflexivity | now rewrite IH]. Qed.

Lemma HasSuffix_dot_added (domain : string) :
  HasSuffix (domain ++ str1 byte_dot) (str1 byte_dot) = true.
Proof.
  unfold HasSuffix. rewrite length_append. cbn [String.length str1].
  replace (String.length domain + 1 - 1) with (String.length domain) by lia.
  rewrite slice_from_app, String.eqb_refl.
  rewrite andb_true_r. apply Nat.leb_le. lia.
Qed.

(** The name asked for, as [getTxtRecords] computes it. *)
Lemma fqdn_code (domain : string) :
  (if negb (HasSuffix domain (str1 byte_dot))
   then domain ++ str1 byte_dot else domain) = fqdn domain.
Proof. unfold fqdn. now destruct (HasSuffix domain (str1 byte_dot)). Qed.

Lemma collectAnswers_from (answers : list RR) (results : slice) :
  fold_left Single.collectAnswer answers results
  = match txtStrings answers with
    | [] => results
    | l => Some (elems results ++ l)%list
    end.
Proof.
  unfold txtStrings.
  revert results. induction answers as [|answer answers IH]; intros results;
    simpl; [reflexivity|].
  rewrite IH. destruct answer as [txt|]; simpl; [|reflexivity].
  destruct (flat_map _ answers) as [|s l]; simpl; [reflexivity|].
  now rewrite <- app_assoc.
Qed.

(** X17: a final dot on the domain makes no difference to
    [getTxtRecords]: the name it asks for always ends with a dot, one is
    added when missing, so a domain and the same domain with a dot give
    the same query, the same records and the same errors. *)
Theorem getTxtRecords_final_dot :
  forall (lib : DnsLibrary) options domain,
    HasSuffix domain (str1 byte_dot) = false ->
    @Single.getTxtRecords lib options (domain ++ str1 byte_dot)
    = @Single.getTxtRecords lib options domain
    /\ HasSuffix (fqdn domain) (str1 byte_dot) = true
    /\ fqdn (fqdn domain) = fqdn domain.
Proof.
  intros lib options domain Hno.
  assert (Hfq : fqdn domain = domain ++ str1 byte_dot)
    by (unfold fqdn; now rewrite Hno).
  assert (Hfq' : fqdn (domain ++ str1 byte_dot) = domain ++ str1 byte_dot)
    by (unfold fqdn; now rewrite HasSuffix_dot_added).
  split; [|split].
  - unfold Single.getTxtRecords. rewrite !fqdn_code. now rewrite Hfq, Hfq'.
  - rewrite Hfq. apply HasSuffix_dot_added.
  - now rewrite Hfq, Hfq'.
Qed.

Lemma getTxtRecords_final_dot_witness :
  Single.getTxtRecords (H := resolver) (Single.mkOptions "plain" "single")
    ("foo.example.com" ++ str1 byte_dot)
  = Single.getTxtRecords (H := resolver) (Single.mkOptions "plain" "single")
      "foo.example.com".
Proof.
  apply (getTxtRecords_final_dot resolver (Single.mkOptions "plain" "single")
           "foo.example.com").
  reflexivity.
Defined.

(** X18: once the first name server has answered, [getTxtRecords]
    returns records exactly when the response code is success, and then
    they are the TXT records of the answer, each one's character strings
    joined without separator, in order, records of other types skipped
    (none at all is no error: the result is nil); a name error names the
    fully qualified domain, and any other code is an error as well, the
    answer section being ignored. *)
Theorem getTxtRecords_returns_the_txt_answers :
  forall (lib : DnsLibrary) options domain config server others response,
    ClientConfigFromFile "/etc/resolv.conf" = inl config ->
    Servers config = server :: others ->
    Exchange (mkQuery (fqdn domain) TypeTXT true) (server ++ ":" ++ Port config)
      = inl response ->
    (Rcode response = RcodeSuccess ->
       exists records,
         @Single.getTxtRecords lib options domain = Returned records
         /\ elems records = txtStrings (Answer response)
         /\ (records = None <-> txtStrings (Answer response) = []))
    /\ (Rcode response = RcodeNameError ->
          @Single.getTxtRecords lib options domain
          = Failed (NoTxtRecords (fqdn domain)))
    /\ (Rcode response <> RcodeSuccess ->
          exists e, @Single.getTxtRecords lib options domain = Failed e).
Proof.
  intros lib options domain config server others response Hconf Hserv Hex.
  unfold Single.getTxtRecords. rewrite fqdn_code, Hconf, Hserv, Hex.
  split; [|split].
  - intros ->. cbn [Nat.eqb RcodeSuccess].
    rewrite collectAnswers_from.
    destruct (txtStrings (Answer response)) as [|s l].
    + exists None. repeat split.
    + exists (Some (s :: l)). repeat split; discriminate.
  - intros ->. reflexivity.
  - intros Hne. apply Nat.eqb_neq in Hne. rewrite Hne.
    destruct (Rcode response =? RcodeNameError)%nat; eexists; reflexivity.
Qed.

Lemma getTxtRecords_returns_the_txt_answers_witness :
  Single.getTxtRecords (H := resolver) (Single.mkOptions "plain" "single")
    "foo.example.com"
  = Returned (Some ["foo=bar"; "key=value"; "things=item1"; "things=item2"])
  /\ Single.getTxtRecords (H := resolver) (Single.mkOptions "plain" "single")
       "missing.example.com"
     = Failed (NoTxtRecords "missing.example.com.").
Proof.
  split.
  - destruct (getTxtRecords_returns_the_txt_answers resolver
                (Single.mkOptions "plain" "single") "foo.example.com"
                (mkClientConfig ["192.0.2.53"] "53") "192.0.2.53" []
                (answerFor (mkQuery "foo.example.com." TypeTXT true))
                eq_refl eq_refl eq_refl) as (Hok & _ & _).
    destruct (Hok eq_refl) as (records & -> & Helems & _).
    destruct records as [l|]; simpl in Helems; [now rewrite Helems|].
    discriminate.
  - destruct (getTxtRecords_returns_the_txt_answers resolver
                (Single.mkOptions "plain" "single") "missing.example.com"
                (mkClientConfig ["192.0.2.53"] "53") "192.0.2.53" []
                (answerFor (mkQuery "missing.example.com." TypeTXT true))
                eq_refl eq_refl eq_refl) as (_ & Hnx & _).
    apply Hnx. reflexivity.
Defined.

(** X19: when resolv.conf is read but names no name server,
    [getTxtRecords] panics on the index of the first server, for every
    domain and before any query; the program then crashes instead of
    exiting with one of its statuses (unless the check of the defaults
    has stopped it first). *)
Theorem no_name_server_panics :
  forall (lib : DnsLibrary) options domain config,
    ClientConfigFromFile "/etc/resolv.conf" = inl config ->
    Servers config = [] ->
    @Single.getTxtRecords lib options domain = Panicked
    /\ forall (W : Type) (writer : Writer W) key defaults (stdout : W),
         len defaults <= 1 ->
         @Single.main lib W writer options domain key defaults stdout
         = Crash stdout.
Proof.
  intros lib options domain config Hconf Hserv.
  assert (Hpanic : @Single.getTxtRecords lib options domain = Panicked).
  { unfold Single.getTxtRecords. now rewrite Hconf, Hserv. }
  split; [exact Hpanic|].
  intros W writer key defaults stdout Hlen. unfold Single.main.
  rewrite len_or_empty.
  replace (1 <? len defaults)%nat with false
    by (symmetry; apply Nat.ltb_ge; exact Hlen).
  rewrite andb_false_r. now rewrite Hpanic.
Qed.

Lemma no_name_server_panics_witness :
  Single.main (H := noServers) (Single.mkOptions "plain" "single")
    "foo.example.com" "key" None (mkBuffer EmptyString)
  = Crash (mkBuffer EmptyString).
Proof.
  destruct (no_name_server_panics noServers (Single.mkOptions "plain" "single")
              "foo.example.com" (mkClientConfig [] "53") eq_refl eq_refl)
    as [_ Hmain].
  apply (Hmain Buffer _ "key" None (mkBuffer EmptyString)).
  vm_compute. lia.
Defined.

(** X20: the two entry points agree once they hold the same records:
    when the provider of [main.go] and the query of the single-file
    variant return the same records, the two runs end with the same
    status and leave standard output in the same state, for every sink. *)
Theorem entry_points_agree_on_same_records :
  forall (P : Type) (C : Main.Collaborators P) (lib : DnsLibrary)
         (W : Type) (writer : Writer W)
         options source domain key defaults (stdout : W)
         provider records answers,
    Main.getTxtProvider options source = inl provider ->
    Main.getTxtRecords provider = inl records ->
    @Single.getTxtRecords lib (forget options) domain = Returned answers ->
    elems answers = records ->
    match @Main.main P C W writer options source key defaults stdout,
          @Single.main lib W writer (forget options) domain key defaults stdout
    with
    | Exit status1 out1 _, Exit status2 out2 _ =>
        status1 = status2 /\ out1 = out2
    | _, _ => False
    end.
Proof.
  intros P C lib W writer options source domain key defaults stdout
         provider records answers Hprov Hrec Hquery Helems.
  unfold Main.main, Single.main.
  rewrite Hprov, Hrec, Hquery, Helems.
  unfold forget at 1. cbn [Single.valueType].
  destruct ((Main.valueType options =? "single") && _); [now split|].
  rewrite <- lookUpValues_forget.
  destruct (Main.lookUpValues options records key _) as [values [e|]];
    [now split|].
  rewrite <- output_forget.
  now destruct (Main.output options stdout values) as [out [e|]].
Qed.

Lemma entry_points_agree_on_same_records_witness :
  match Main.main (Main.mkOptions "json" "list" EmptyString)
          "dns:foo.example.com" "things" None (mkBuffer EmptyString),
        Single.main (H := resolver) (Single.mkOptions "json" "list")
          "foo.example.com" "things" None (mkBuffer EmptyString)
  with
  | Exit status1 out1 _, Exit status2 out2 _ => status1 = status2 /\ out1 = out2
  | _, _ => False
  end.
Proof.
  apply (entry_points_agree_on_same_records (string * string)%type readme
           resolver Buffer _ (Main.mkOptions "json" "list" EmptyString)
           "dns:foo.example.com" "foo.example.com" "things" None
           (mkBuffer EmptyString) (EmptyString, "foo.example.com")
           readmeRecords (Some readmeRecords));
    reflexivity.
Defined.

End SingleProperties.
